(** * VkTexturedCube3D: the GPU resource wrappers [BufferGPU] and [TextureGPU]

    A shallow embedding of [Code/BufferGPU.cpp] and [Code/TextureGPU.cpp].

    - Vulkan structs are records, one module per struct so that the fields
      keep the names they have in the C headers.
    - Enumerations the code names are inductive types; flag words, formats
      and handles are integers.
    - A command buffer is the list of commands recorded into it so far.
    - The device is a set of live handles per handle kind, together with the
      log of the API calls issued; what the driver answers to each call is an
      input ([Driver]).  *)

From stdpp Require Import base gmap list.
From Stdlib Require Import ZArith Lia.

Local Open Scope Z_scope.

(** ** Integers of the C code *)

(** [int] to [uint32_t] (an assignment or a cast). *)
Definition to_uint32 (z : Z) : Z := z mod 2 ^ 32.

(** [int] to [VkDeviceSize], which is [uint64_t]. *)
Definition to_uint64 (z : Z) : Z := z mod 2 ^ 64.

(** The values an [int] argument can have. *)
Definition int_range (z : Z) : Prop := - 2 ^ 31 <= z < 2 ^ 31.

(** ** Vulkan enumerations and flag bits *)

Inductive VkStructureType :=
| VK_STRUCTURE_TYPE_APPLICATION_INFO          (* 0, what [= {}] leaves *)
| VK_STRUCTURE_TYPE_MEMORY_ALLOCATE_INFO
| VK_STRUCTURE_TYPE_IMAGE_VIEW_CREATE_INFO
| VK_STRUCTURE_TYPE_IMAGE_MEMORY_BARRIER.

Inductive VkImageLayout :=
| VK_IMAGE_LAYOUT_UNDEFINED                   (* 0 *)
| VK_IMAGE_LAYOUT_GENERAL
| VK_IMAGE_LAYOUT_COLOR_ATTACHMENT_OPTIMAL
| VK_IMAGE_LAYOUT_DEPTH_STENCIL_ATTACHMENT_OPTIMAL
| VK_IMAGE_LAYOUT_DEPTH_STENCIL_READ_ONLY_OPTIMAL
| VK_IMAGE_LAYOUT_SHADER_READ_ONLY_OPTIMAL
| VK_IMAGE_LAYOUT_TRANSFER_SRC_OPTIMAL
| VK_IMAGE_LAYOUT_TRANSFER_DST_OPTIMAL
| VK_IMAGE_LAYOUT_PREINITIALIZED.

Inductive VkImageViewType :=
| VK_IMAGE_VIEW_TYPE_1D                       (* 0 *)
| VK_IMAGE_VIEW_TYPE_2D
| VK_IMAGE_VIEW_TYPE_3D
| VK_IMAGE_VIEW_TYPE_CUBE.

Inductive VkComponentSwizzle :=
| VK_COMPONENT_SWIZZLE_IDENTITY               (* 0 *)
| VK_COMPONENT_SWIZZLE_ZERO
| VK_COMPONENT_SWIZZLE_ONE
| VK_COMPONENT_SWIZZLE_R
| VK_COMPONENT_SWIZZLE_G
| VK_COMPONENT_SWIZZLE_B
| VK_COMPONENT_SWIZZLE_A.

Definition VK_SUCCESS : Z := 0.
Definition VK_ERROR_OUT_OF_DEVICE_MEMORY : Z := -2.

Definition VK_MEMORY_PROPERTY_DEVICE_LOCAL_BIT : Z := 1.
Definition VK_MEMORY_PROPERTY_HOST_VISIBLE_BIT : Z := 2.

Definition VK_ACCESS_TRANSFER_WRITE_BIT : Z := 4096.

Definition VK_PIPELINE_STAGE_TOP_OF_PIPE_BIT : Z := 1.
Definition VK_PIPELINE_STAGE_FRAGMENT_SHADER_BIT : Z := 128.
Definition VK_PIPELINE_STAGE_TRANSFER_BIT : Z := 4096.

Definition VK_IMAGE_ASPECT_COLOR_BIT : Z := 1.
Definition VK_IMAGE_ASPECT_DEPTH_BIT : Z := 2.

(** ** Vulkan structs *)

Module VkBufferCreateInfo.
Record t := mk { flags : Z; size : Z; usage : Z; sharingMode : Z }.
End VkBufferCreateInfo.

Module VkExtent3D.
Record t := mk { width : Z; height : Z; depth : Z }.
End VkExtent3D.

Module VkOffset3D.
Record t := mk { x : Z; y : Z; z : Z }.
Definition zero : t := mk 0 0 0.
End VkOffset3D.

Module VkImageCreateInfo.
Record t := mk {
  flags : Z;
  imageType : Z;
  format : Z;
  extent : VkExtent3D.t;
  mipLevels : Z;
  arrayLayers : Z;
  samples : Z;
  tiling : Z;
  usage : Z;
  sharingMode : Z;
  initialLayout : VkImageLayout
}.
End VkImageCreateInfo.

Module VkMemoryRequirements.
Record t := mk { size : Z; alignment : Z; memoryTypeBits : Z }.
End VkMemoryRequirements.

Module VkMemoryAllocateInfo.
Record t := mk {
  sType : VkStructureType;
  allocationSize : Z;
  memoryTypeIndex : Z
}.
(** [VkMemoryAllocateInfo memAllocInfo = {};] *)
Definition zero : t := mk VK_STRUCTURE_TYPE_APPLICATION_INFO 0 0.
Definition set_sType (s : t) (v : VkStructureType) : t :=
  mk v (allocationSize s) (memoryTypeIndex s).
Definition set_allocationSize (s : t) (v : Z) : t :=
  mk (sType s) v (memoryTypeIndex s).
Definition set_memoryTypeIndex (s : t) (v : Z) : t :=
  mk (sType s) (allocationSize s) v.
End VkMemoryAllocateInfo.

Module VkMemoryType.
Record t := mk { propertyFlags : Z; heapIndex : Z }.
End VkMemoryType.

Module VkPhysicalDeviceMemoryProperties.
(** [memoryTypes[i]] for [i < memoryTypeCount]: the position in the list
    is the memory-type index. *)
Record t := mk { memoryTypes : list VkMemoryType.t }.
End VkPhysicalDeviceMemoryProperties.

Module VkComponentMapping.
Record t := mk {
  r : VkComponentSwizzle;
  g : VkComponentSwizzle;
  b : VkComponentSwizzle;
  a : VkComponentSwizzle
}.
Definition zero : t :=
  mk VK_COMPONENT_SWIZZLE_IDENTITY VK_COMPONENT_SWIZZLE_IDENTITY
     VK_COMPONENT_SWIZZLE_IDENTITY VK_COMPONENT_SWIZZLE_IDENTITY.
Definition set_r (s : t) (v : VkComponentSwizzle) : t := mk v (g s) (b s) (a s).
Definition set_g (s : t) (v : VkComponentSwizzle) : t := mk (r s) v (b s) (a s).
Definition set_b (s : t) (v : VkComponentSwizzle) : t := mk (r s) (g s) v (a s).
Definition set_a (s : t) (v : VkComponentSwizzle) : t := mk (r s) (g s) (b s) v.
End VkComponentMapping.

Module VkImageSubresourceRange.
Record t := mk {
  aspectMask : Z;
  baseMipLevel : Z;
  levelCount : Z;
  baseArrayLayer : Z;
  layerCount : Z
}.
Definition zero : t := mk 0 0 0 0 0.
Definition set_aspectMask (s : t) (v : Z) : t :=
  mk v (baseMipLevel s) (levelCount s) (baseArrayLayer s) (layerCount s).
Definition set_baseMipLevel (s : t) (v : Z) : t :=
  mk (aspectMask s) v (levelCount s) (baseArrayLayer s) (layerCount s).
Definition set_levelCount (s : t) (v : Z) : t :=
  mk (aspectMask s) (baseMipLevel s) v (baseArrayLayer s) (layerCount s).
Definition set_baseArrayLayer (s : t) (v : Z) : t :=
  mk (aspectMask s) (baseMipLevel s) (levelCount s) v (layerCount s).
Definition set_layerCount (s : t) (v : Z) : t :=
  mk (aspectMask s) (baseMipLevel s) (levelCount s) (baseArrayLayer s) v.
End VkImageSubresourceRange.

Module VkImageViewCreateInfo.
Record t := mk {
  sType : VkStructureType;
  flags : Z;
  image : Z;
  viewType : VkImageViewType;
  format : Z;
  components : VkComponentMapping.t;
  subresourceRange : VkImageSubresourceRange.t
}.
(** [VkImageViewCreateInfo viewInfo = {};] *)
Definition zero : t :=
  mk VK_STRUCTURE_TYPE_APPLICATION_INFO 0 0 VK_IMAGE_VIEW_TYPE_1D 0
     VkComponentMapping.zero VkImageSubresourceRange.zero.
Definition set_sType (s : t) (v : VkStructureType) : t :=
  mk v (flags s) (image s) (viewType s) (format s) (components s) (subresourceRange s).
Definition set_image (s : t) (v : Z) : t :=
  mk (sType s) (flags s) v (viewType s) (format s) (components s) (subresourceRange s).
Definition set_viewType (s : t) (v : VkImageViewType) : t :=
  mk (sType s) (flags s) (image s) v (format s) (components s) (subresourceRange s).
Definition set_format (s : t) (v : Z) : t :=
  mk (sType s) (flags s) (image s) (viewType s) v (components s) (subresourceRange s).
Definition set_components (s : t) (v : VkComponentMapping.t) : t :=
  mk (sType s) (flags s) (image s) (viewType s) (format s) v (subresourceRange s).
Definition set_subresourceRange (s : t) (v : VkImageSubresourceRange.t) : t :=
  mk (sType s) (flags s) (image s) (viewType s) (format s) (components s) v.
End VkImageViewCreateInfo.

Module VkBufferCopy.
Record t := mk { srcOffset : Z; dstOffset : Z; size : Z }.
(** [VkBufferCopy copyRegion = {};] *)
Definition zero : t := mk 0 0 0.
Definition set_size (s : t) (v : Z) : t := mk (srcOffset s) (dstOffset s) v.
End VkBufferCopy.

Module VkImageSubresourceLayers.
Record t := mk {
  aspectMask : Z;
  mipLevel : Z;
  baseArrayLayer : Z;
  layerCount : Z
}.
Definition zero : t := mk 0 0 0 0.
End VkImageSubresourceLayers.

Module VkBufferImageCopy.
Record t := mk {
  bufferOffset : Z;
  bufferRowLength : Z;
  bufferImageHeight : Z;
  imageSubresource : VkImageSubresourceLayers.t;
  imageOffset : VkOffset3D.t;
  imageExtent : VkExtent3D.t
}.
(** [VkBufferImageCopy copy_region = {};] *)
Definition zero : t :=
  mk 0 0 0 VkImageSubresourceLayers.zero VkOffset3D.zero (VkExtent3D.mk 0 0 0).
Definition set_bufferRowLength (s : t) (v : Z) : t :=
  mk (bufferOffset s) v (bufferImageHeight s) (imageSubresource s)
     (imageOffset s) (imageExtent s).
Definition set_bufferImageHeight (s : t) (v : Z) : t :=
  mk (bufferOffset s) (bufferRowLength s) v (imageSubresource s)
     (imageOffset s) (imageExtent s).
Definition set_imageSubresource (s : t) (v : VkImageSubresourceLayers.t) : t :=
  mk (bufferOffset s) (bufferRowLength s) (bufferImageHeight s) v
     (imageOffset s) (imageExtent s).
Definition set_imageExtent (s : t) (v : VkExtent3D.t) : t :=
  mk (bufferOffset s) (bufferRowLength s) (bufferImageHeight s)
     (imageSubresource s) (imageOffset s) v.
End VkBufferImageCopy.

Module VkMemoryBarrier.
Record t := mk { srcAccessMask : Z; dstAccessMask : Z }.
End VkMemoryBarrier.

Module VkBufferMemoryBarrier.
Record t := mk {
  srcAccessMask : Z; dstAccessMask : Z; buffer : Z; offset : Z; size : Z
}.
End VkBufferMemoryBarrier.

Module VkImageMemoryBarrier.
Record t := mk {
  sType : VkStructureType;
  srcAccessMask : Z;
  dstAccessMask : Z;
  oldLayout : VkImageLayout;
  newLayout : VkImageLayout;
  srcQueueFamilyIndex : Z;
  dstQueueFamilyIndex : Z;
  image : Z;
  subresourceRange : VkImageSubresourceRange.t
}.
(** [VkImageMemoryBarrier image_memory_barrier = {};] *)
Definition zero : t :=
  mk VK_STRUCTURE_TYPE_APPLICATION_INFO 0 0
     VK_IMAGE_LAYOUT_UNDEFINED VK_IMAGE_LAYOUT_UNDEFINED 0 0 0
     VkImageSubresourceRange.zero.
Definition set_sType (s : t) (v : VkStructureType) : t :=
  mk v (srcAccessMask s) (dstAccessMask s) (oldLayout s) (newLayout s)
     (srcQueueFamilyIndex s) (dstQueueFamilyIndex s) (image s) (subresourceRange s).
Definition set_srcAccessMask (s : t) (v : Z) : t :=
  mk (sType s) v (dstAccessMask s) (oldLayout s) (newLayout s)
     (srcQueueFamilyIndex s) (dstQueueFamilyIndex s) (image s) (subresourceRange s).
Definition set_dstAccessMask (s : t) (v : Z) : t :=
  mk (sType s) (srcAccessMask s) v (oldLayout s) (newLayout s)
     (srcQueueFamilyIndex s) (dstQueueFamilyIndex s) (image s) (subresourceRange s).
Definition set_oldLayout (s : t) (v : VkImageLayout) : t :=
  mk (sType s) (srcAccessMask s) (dstAccessMask s) v (newLayout s)
     (srcQueueFamilyIndex s) (dstQueueFamilyIndex s) (image s) (subresourceRange s).
Definition set_newLayout (s : t) (v : VkImageLayout) : t :=
  mk (sType s) (srcAccessMask s) (dstAccessMask s) (oldLayout s) v
     (srcQueueFamilyIndex s) (dstQueueFamilyIndex s) (image s) (subresourceRange s).
Definition set_image (s : t) (v : Z) : t :=
  mk (sType s) (srcAccessMask s) (dstAccessMask s) (oldLayout s) (newLayout s)
     (srcQueueFamilyIndex s) (dstQueueFamilyIndex s) v (subresourceRange s).
Definition set_subresourceRange (s : t) (v : VkImageSubresourceRange.t) : t :=
  mk (sType s) (srcAccessMask s) (dstAccessMask s) (oldLayout s) (newLayout s)
     (srcQueueFamilyIndex s) (dstQueueFamilyIndex s) (image s) v.
End VkImageMemoryBarrier.

(** ** Command buffers *)

(** The commands the two wrappers record.  A count and a pointer to that many
    structs are one list. *)
Inductive Command :=
| CmdCopyBuffer (srcBuffer dstBuffer : Z) (pRegions : list VkBufferCopy.t)
| CmdPipelineBarrier (srcStageMask dstStageMask dependencyFlags : Z)
    (pMemoryBarriers : list VkMemoryBarrier.t)
    (pBufferMemoryBarriers : list VkBufferMemoryBarrier.t)
    (pImageMemoryBarriers : list VkImageMemoryBarrier.t)
| CmdCopyBufferToImage (srcBuffer dstImage : Z) (dstImageLayout : VkImageLayout)
    (pRegions : list VkBufferImageCopy.t).

(** A [VkCommandBuffer] in the recording state: what was recorded, oldest
    first. *)
Abbreviation VkCommandBuffer := (list Command).

Definition vkCmdCopyBuffer (cmd : VkCommandBuffer) (srcBuffer dstBuffer : Z)
    (pRegions : list VkBufferCopy.t) : VkCommandBuffer :=
  cmd ++ [CmdCopyBuffer srcBuffer dstBuffer pRegions].

Definition vkCmdPipelineBarrier (cmd : VkCommandBuffer)
    (srcStageMask dstStageMask dependencyFlags : Z)
    (pMemoryBarriers : list VkMemoryBarrier.t)
    (pBufferMemoryBarriers : list VkBufferMemoryBarrier.t)
    (pImageMemoryBarriers : list VkImageMemoryBarrier.t) : VkCommandBuffer :=
  cmd ++ [CmdPipelineBarrier srcStageMask dstStageMask dependencyFlags
            pMemoryBarriers pBufferMemoryBarriers pImageMemoryBarriers].

Definition vkCmdCopyBufferToImage (cmd : VkCommandBuffer) (srcBuffer dstImage : Z)
    (dstImageLayout : VkImageLayout)
    (pRegions : list VkBufferImageCopy.t) : VkCommandBuffer :=
  cmd ++ [CmdCopyBufferToImage srcBuffer dstImage dstImageLayout pRegions].

(** ** The device and its driver *)

(** The calls a wrapper issues, as logged in the order of execution. *)
Inductive Call :=
| CallCreateBuffer (device : Z) (pCreateInfo : VkBufferCreateInfo.t)
| CallGetBufferMemoryRequirements (device buffer : Z)
| CallCreateImage (device : Z) (pCreateInfo : VkImageCreateInfo.t)
| CallGetImageMemoryRequirements (device image : Z)
| CallMemoryTypeFromProperties (typeBits requirements_mask : Z)
| CallAllocateMemory (device : Z) (pAllocateInfo : VkMemoryAllocateInfo.t)
| CallBindBufferMemory (device buffer memory memoryOffset : Z)
| CallBindImageMemory (device image memory memoryOffset : Z)
| CallCreateImageView (device : Z) (pCreateInfo : VkImageViewCreateInfo.t)
| CallDestroyBuffer (device buffer : Z)
| CallDestroyImage (device image : Z)
| CallDestroyImageView (device imageView : Z)
| CallFreeMemory (device memory : Z).

(** The handles that are alive on the device, per kind, and the log. *)
Record World := mkWorld {
  live_buffers : gset Z;
  live_images : gset Z;
  live_views : gset Z;
  live_memory : gset Z;
  calls : list Call
}.

(** What the Vulkan implementation answers to the calls of one construction:
    a [VkResult] and the handle left in the output variable, or the
    requirements it reports.  A constructor issues each call once, so
    quantifying over [Driver] covers every behaviour of the implementation. *)
Record Driver := mkDriver {
  answer_vkCreateBuffer : Z * Z;
  answer_vkGetBufferMemoryRequirements : VkMemoryRequirements.t;
  answer_vkCreateImage : Z * Z;
  answer_vkGetImageMemoryRequirements : VkMemoryRequirements.t;
  answer_vkAllocateMemory : Z * Z;
  answer_vkBindBufferMemory : Z;
  answer_vkBindImageMemory : Z;
  answer_vkCreateImageView : Z * Z
}.

(** A creation call brings its handle to life when it reports [VK_SUCCESS]. *)
Definition created (result handle : Z) (live : gset Z) : gset Z :=
  if result =? VK_SUCCESS then {[handle]} ∪ live else live.

(** ** Calls that may end the process *)

Inductive Outcome (A : Type) : Type :=
| Returned (a : A) (w : World)
| Aborted (w : World).
Arguments Returned {A} a w.
Arguments Aborted {A} w.

Definition Run (A : Type) : Type := World → Outcome A.

#[global] Instance run_ret : MRet Run := λ A a w, Returned a w.

#[global] Instance run_bind : MBind Run := λ A B f c w,
  match c w with
  | Returned a w' => f a w'
  | Aborted w' => Aborted w'
  end.

Definition log (c : Call) (w : World) : World :=
  mkWorld (live_buffers w) (live_images w) (live_views w) (live_memory w)
          (calls w ++ [c]).

Definition vkCreateBuffer (drv : Driver) (device : Z)
    (pCreateInfo : VkBufferCreateInfo.t) : Run (Z * Z) := λ w,
  let '(result, buffer) := answer_vkCreateBuffer drv in
  Returned (result, buffer)
    (mkWorld (created result buffer (live_buffers w)) (live_images w)
             (live_views w) (live_memory w)
             (calls w ++ [CallCreateBuffer device pCreateInfo])).

Definition vkGetBufferMemoryRequirements (drv : Driver) (device buffer : Z)
    : Run VkMemoryRequirements.t := λ w,
  Returned (answer_vkGetBufferMemoryRequirements drv)
    (log (CallGetBufferMemoryRequirements device buffer) w).

Definition vkCreateImage (drv : Driver) (device : Z)
    (pCreateInfo : VkImageCreateInfo.t) : Run (Z * Z) := λ w,
  let '(result, image) := answer_vkCreateImage drv in
  Returned (result, image)
    (mkWorld (live_buffers w) (created result image (live_images w))
             (live_views w) (live_memory w)
             (calls w ++ [CallCreateImage device pCreateInfo])).

Definition vkGetImageMemoryRequirements (drv : Driver) (device image : Z)
    : Run VkMemoryRequirements.t := λ w,
  Returned (answer_vkGetImageMemoryRequirements drv)
    (log (CallGetImageMemoryRequirements device image) w).

Definition vkAllocateMemory (drv : Driver) (device : Z)
    (pAllocateInfo : VkMemoryAllocateInfo.t) : Run (Z * Z) := λ w,
  let '(result, memory) := answer_vkAllocateMemory drv in
  Returned (result, memory)
    (mkWorld (live_buffers w) (live_images w) (live_views w)
             (created result memory (live_memory w))
             (calls w ++ [CallAllocateMemory device pAllocateInfo])).

Definition vkBindBufferMemory (drv : Driver)
    (device buffer memory memoryOffset : Z) : Run Z := λ w,
  Returned (answer_vkBindBufferMemory drv)
    (log (CallBindBufferMemory device buffer memory memoryOffset) w).

Definition vkBindImageMemory (drv : Driver)
    (device image memory memoryOffset : Z) : Run Z := λ w,
  Returned (answer_vkBindImageMemory drv)
    (log (CallBindImageMemory device image memory memoryOffset) w).

Definition vkCreateImageView (drv : Driver) (device : Z)
    (pCreateInfo : VkImageViewCreateInfo.t) : Run (Z * Z) := λ w,
  let '(result, view) := answer_vkCreateImageView drv in
  Returned (result, view)
    (mkWorld (live_buffers w) (live_images w)
             (created result view (live_views w)) (live_memory w)
             (calls w ++ [CallCreateImageView device pCreateInfo])).

Definition vkDestroyBuffer (device buffer : Z) : Run unit := λ w,
  Returned tt
    (mkWorld (live_buffers w ∖ {[buffer]}) (live_images w) (live_views w)
             (live_memory w) (calls w ++ [CallDestroyBuffer device buffer])).

Definition vkDestroyImage (device image : Z) : Run unit := λ w,
  Returned tt
    (mkWorld (live_buffers w) (live_images w ∖ {[image]}) (live_views w)
             (live_memory w) (calls w ++ [CallDestroyImage device image])).

Definition vkDestroyImageView (device imageView : Z) : Run unit := λ w,
  Returned tt
    (mkWorld (live_buffers w) (live_images w) (live_views w ∖ {[imageView]})
             (live_memory w) (calls w ++ [CallDestroyImageView device imageView])).

Definition vkFreeMemory (device memory : Z) : Run unit := λ w,
  Returned tt
    (mkWorld (live_buffers w) (live_images w) (live_views w)
             (live_memory w ∖ {[memory]}) (calls w ++ [CallFreeMemory device memory])).

(** ** Helper *)

Module Helper.

(** Modelled from the spec: the test [Helper::memory_type_from_properties]
    applies to memory type [i], "whose flags include device-local and whose
    bit is set in the requirement bitmask": the index bit is set in
    [typeBits] and the flags include every bit of [requirements_mask]. *)
Definition suitable (typeBits requirements_mask : Z) (i : nat)
    (mt : VkMemoryType.t) : bool :=
  Z.testbit typeBits (Z.of_nat i)
  && (Z.land (VkMemoryType.propertyFlags mt) requirements_mask =? requirements_mask).

(** Modelled from the spec: the selection made by
    [Helper::memory_type_from_properties], the first suitable type among
    [types], which start at index [i]. *)
Fixpoint search (types : list VkMemoryType.t) (i : nat)
    (typeBits requirements_mask : Z) : option nat :=
  match types with
  | [] => None
  | mt :: rest =>
      if suitable typeBits requirements_mask i mt then Some i
      else search rest (S i) typeBits requirements_mask
  end.

(** Modelled from the spec: [Helper::memory_type_from_properties], whose
    definition ([Helper.cpp]) is not among the sources; only its two call
    sites are.  The spec: it "selects a memory-type index from
    [memoryProperties] whose flags include device-local and whose bit is set
    in the requirement bitmask" and "fails fatally (aborts resource
    creation) if no such type exists".  The index found is what the call
    stores through its last argument, [&memAllocInfo.memoryTypeIndex]; the
    spec does not say which suitable type is taken when there are several,
    the lowest index is taken here. *)
Definition memory_type_from_properties
    (memory_properties : VkPhysicalDeviceMemoryProperties.t)
    (typeBits requirements_mask : Z) : Run Z := λ w,
  let w' := log (CallMemoryTypeFromProperties typeBits requirements_mask) w in
  match search (VkPhysicalDeviceMemoryProperties.memoryTypes memory_properties)
               0%nat typeBits requirements_mask with
  | Some i => Returned (Z.of_nat i) w'
  | None => Aborted w'
  end.

End Helper.

(** ** BufferGPU *)

Module BufferGPU.

Record t := mk { device : Z; buffer : Z; memory : Z }.

(** [BufferGPU::BufferGPU].  Every call is a statement of its own: what it
    returns is dropped, the handle or struct it writes is kept. *)
Definition ctor (drv : Driver) (d : Z)
    (memory_properties : VkPhysicalDeviceMemoryProperties.t)
    (info : VkBufferCreateInfo.t) : Run t :=
  let device := d in
  '(_, buffer) ← vkCreateBuffer drv device info;
  mem_reqs ← vkGetBufferMemoryRequirements drv device buffer;
  let memAllocInfo := VkMemoryAllocateInfo.zero in
  let memAllocInfo :=
    VkMemoryAllocateInfo.set_sType memAllocInfo
      VK_STRUCTURE_TYPE_MEMORY_ALLOCATE_INFO in
  let memAllocInfo :=
    VkMemoryAllocateInfo.set_allocationSize memAllocInfo
      (VkMemoryRequirements.size mem_reqs) in
  typeIndex ← Helper.memory_type_from_properties memory_properties
                (VkMemoryRequirements.memoryTypeBits mem_reqs)
                VK_MEMORY_PROPERTY_DEVICE_LOCAL_BIT;
  let memAllocInfo :=
    VkMemoryAllocateInfo.set_memoryTypeIndex memAllocInfo typeIndex in
  '(_, memory) ← vkAllocateMemory drv device memAllocInfo;
  _ ← vkBindBufferMemory drv device buffer memory 0;
  mret (mk device buffer memory).

(** [BufferGPU::~BufferGPU] *)
Definition dtor (this : t) : Run unit :=
  _ ← vkDestroyBuffer (device this) (buffer this);
  vkFreeMemory (device this) (memory this).

(** [BufferGPU::Store]: the object after the call and the command buffer
    after the call. *)
Definition Store (this : t) (cmd : VkCommandBuffer) (cpuBuffer : Z)
    (size : Z) : t * VkCommandBuffer :=
  let copyRegion := VkBufferCopy.zero in
  let copyRegion := VkBufferCopy.set_size copyRegion (to_uint64 size) in
  let cmd := vkCmdCopyBuffer cmd cpuBuffer (buffer this) [copyRegion] in
  (this, cmd).

(** Both handles are alive on the device. *)
Definition valid (w : World) (this : t) : Prop :=
  (buffer this ∈ live_buffers w) ∧ (memory this ∈ live_memory w).

(** Neither handle is alive on the device. *)
Definition released (w : World) (this : t) : Prop :=
  (buffer this ∉ live_buffers w) ∧ (memory this ∉ live_memory w).

End BufferGPU.

(** ** TextureGPU *)

Module TextureGPU.

Record t := mk {
  device : Z;
  image : Z;
  memory : Z;
  imageView : Z;
  viewCreateInfo : VkImageViewCreateInfo.t
}.

(** [TextureGPU::TextureGPU] *)
Definition ctor (drv : Driver) (d : Z)
    (memory_properties : VkPhysicalDeviceMemoryProperties.t)
    (image_create_info : VkImageCreateInfo.t) (aspect : Z) : Run t :=
  let device := d in
  '(_, image) ← vkCreateImage drv device image_create_info;
  mem_reqs ← vkGetImageMemoryRequirements drv device image;
  let memAllocInfo := VkMemoryAllocateInfo.zero in
  let memAllocInfo :=
    VkMemoryAllocateInfo.set_sType memAllocInfo
      VK_STRUCTURE_TYPE_MEMORY_ALLOCATE_INFO in
  let memAllocInfo :=
    VkMemoryAllocateInfo.set_allocationSize memAllocInfo
      (VkMemoryRequirements.size mem_reqs) in
  typeIndex ← Helper.memory_type_from_properties memory_properties
                (VkMemoryRequirements.memoryTypeBits mem_reqs)
                VK_MEMORY_PROPERTY_DEVICE_LOCAL_BIT;
  let memAllocInfo :=
    VkMemoryAllocateInfo.set_memoryTypeIndex memAllocInfo typeIndex in
  '(_, memory) ← vkAllocateMemory drv device memAllocInfo;
  _ ← vkBindImageMemory drv device image memory 0;
  let viewInfo := VkImageViewCreateInfo.zero in
  let viewInfo :=
    VkImageViewCreateInfo.set_sType viewInfo
      VK_STRUCTURE_TYPE_IMAGE_VIEW_CREATE_INFO in
  let viewInfo :=
    VkImageViewCreateInfo.set_viewType viewInfo VK_IMAGE_VIEW_TYPE_2D in
  let viewInfo :=
    VkImageViewCreateInfo.set_format viewInfo
      (VkImageCreateInfo.format image_create_info) in
  let viewInfo :=
    VkImageViewCreateInfo.set_components viewInfo
      (VkComponentMapping.set_r (VkImageViewCreateInfo.components viewInfo)
         VK_COMPONENT_SWIZZLE_R) in
  let viewInfo :=
    VkImageViewCreateInfo.set_components viewInfo
      (VkComponentMapping.set_g (VkImageViewCreateInfo.components viewInfo)
         VK_COMPONENT_SWIZZLE_G) in
  let viewInfo :=
    VkImageViewCreateInfo.set_components viewInfo
      (VkComponentMapping.set_b (VkImageViewCreateInfo.components viewInfo)
         VK_COMPONENT_SWIZZLE_B) in
  let viewInfo :=
    VkImageViewCreateInfo.set_components viewInfo
      (VkComponentMapping.set_a (VkImageViewCreateInfo.components viewInfo)
         VK_COMPONENT_SWIZZLE_A) in
  let viewInfo :=
    VkImageViewCreateInfo.set_subresourceRange viewInfo
      (VkImageSubresourceRange.set_aspectMask
         (VkImageViewCreateInfo.subresourceRange viewInfo) aspect) in
  let viewInfo :=
    VkImageViewCreateInfo.set_subresourceRange viewInfo
      (VkImageSubresourceRange.set_baseMipLevel
         (VkImageViewCreateInfo.subresourceRange viewInfo) 0) in
  let viewInfo :=
    VkImageViewCreateInfo.set_subresourceRange viewInfo
      (VkImageSubresourceRange.set_levelCount
         (VkImageViewCreateInfo.subresourceRange viewInfo) 1) in
  let viewInfo :=
    VkImageViewCreateInfo.set_subresourceRange viewInfo
      (VkImageSubresourceRange.set_baseArrayLayer
         (VkImageViewCreateInfo.subresourceRange viewInfo) 0) in
  let viewInfo :=
    VkImageViewCreateInfo.set_subresourceRange viewInfo
      (VkImageSubresourceRange.set_layerCount
         (VkImageViewCreateInfo.subresourceRange viewInfo) 1) in
  let viewInfo := VkImageViewCreateInfo.set_image viewInfo image in
  '(_, imageView) ← vkCreateImageView drv device viewInfo;
  let viewCreateInfo := viewInfo in
  mret (mk device image memory imageView viewCreateInfo).

(** [TextureGPU::~TextureGPU] *)
Definition dtor (this : t) : Run unit :=
  _ ← vkFreeMemory (device this) (memory this);
  _ ← vkDestroyImage (device this) (image this);
  vkDestroyImageView (device this) (imageView this).

(** [TextureGPU::Store]: the object after the call and the command buffer
    after the call. *)
Definition Store (this : t) (cmd : VkCommandBuffer) (cpuBuffer : Z)
    (width height : Z) : t * VkCommandBuffer :=
  let image_memory_barrier := VkImageMemoryBarrier.zero in
  let image_memory_barrier :=
    VkImageMemoryBarrier.set_sType image_memory_barrier
      VK_STRUCTURE_TYPE_IMAGE_MEMORY_BARRIER in
  let image_memory_barrier :=
    VkImageMemoryBarrier.set_srcAccessMask image_memory_barrier 0 in
  let image_memory_barrier :=
    VkImageMemoryBarrier.set_dstAccessMask image_memory_barrier
      VK_ACCESS_TRANSFER_WRITE_BIT in
  let image_memory_barrier :=
    VkImageMemoryBarrier.set_oldLayout image_memory_barrier
      VK_IMAGE_LAYOUT_PREINITIALIZED in
  let image_memory_barrier :=
    VkImageMemoryBarrier.set_newLayout image_memory_barrier
      VK_IMAGE_LAYOUT_TRANSFER_DST_OPTIMAL in
  let image_memory_barrier :=
    VkImageMemoryBarrier.set_image image_memory_barrier
      (VkImageViewCreateInfo.image (viewCreateInfo this)) in
  let image_memory_barrier :=
    VkImageMemoryBarrier.set_subresourceRange image_memory_barrier
      (VkImageViewCreateInfo.subresourceRange (viewCreateInfo this)) in
  let cmd :=
    vkCmdPipelineBarrier cmd
      VK_PIPELINE_STAGE_TOP_OF_PIPE_BIT
      VK_PIPELINE_STAGE_TRANSFER_BIT
      0 [] []
      [image_memory_barrier] in
  let copy_region := VkBufferImageCopy.zero in
  let copy_region :=
    VkBufferImageCopy.set_bufferRowLength copy_region (to_uint32 width) in
  let copy_region :=
    VkBufferImageCopy.set_bufferImageHeight copy_region (to_uint32 height) in
  let copy_region :=
    VkBufferImageCopy.set_imageExtent copy_region
      (VkExtent3D.mk (to_uint32 width) (to_uint32 height) 1) in
  let copy_region :=
    VkBufferImageCopy.set_imageSubresource copy_region
      (VkImageSubresourceLayers.mk
         (VkImageSubresourceRange.aspectMask
            (VkImageViewCreateInfo.subresourceRange (viewCreateInfo this)))
         0 0 1) in
  let cmd :=
    vkCmdCopyBufferToImage cmd cpuBuffer (image this)
      VK_IMAGE_LAYOUT_TRANSFER_DST_OPTIMAL [copy_region] in
  let image_memory_barrier :=
    VkImageMemoryBarrier.set_srcAccessMask image_memory_barrier
      VK_ACCESS_TRANSFER_WRITE_BIT in
  let image_memory_barrier :=
    VkImageMemoryBarrier.set_dstAccessMask image_memory_barrier 0 in
  let image_memory_barrier :=
    VkImageMemoryBarrier.set_oldLayout image_memory_barrier
      VK_IMAGE_LAYOUT_TRANSFER_DST_OPTIMAL in
  let image_memory_barrier :=
    VkImageMemoryBarrier.set_newLayout image_memory_barrier
      VK_IMAGE_LAYOUT_SHADER_READ_ONLY_OPTIMAL in
  let cmd :=
    vkCmdPipelineBarrier cmd
      VK_PIPELINE_STAGE_TRANSFER_BIT
      VK_PIPELINE_STAGE_FRAGMENT_SHADER_BIT
      0 [] []
      [image_memory_barrier] in
  (this, cmd).

(** The three handles are alive on the device. *)
Definition valid (w : World) (this : t) : Prop :=
  (image this ∈ live_images w) ∧ (memory this ∈ live_memory w)
  ∧ (imageView this ∈ live_views w).

(** None of the three handles is alive on the device. *)
Definition released (w : World) (this : t) : Prop :=
  (image this ∉ live_images w) ∧ (memory this ∉ live_memory w)
  ∧ (imageView this ∉ live_views w).

End TextureGPU.

(** ** The constructors, with the lookup left open *)

(** What a call of [Helper::memory_type_from_properties] can do, as seen from
    its call sites (its definition is not among the sources): given the
    snapshot, the type bits, the requirement mask and the value that
    [*typeIndex] holds, it returns a value and leaves a value in
    [*typeIndex]; or it does not return to its caller ([None]). *)
Definition LookupBehaviour : Type :=
  VkPhysicalDeviceMemoryProperties.t → Z → Z → Z → option (Z * Z).

(** The call [Helper::memory_type_from_properties(memory_properties,
    typeBits, requirements_mask, &typeIndex)] for a helper that behaves as
    [lookup]. *)
Definition call_memory_type_from_properties (lookup : LookupBehaviour)
    (memory_properties : VkPhysicalDeviceMemoryProperties.t)
    (typeBits requirements_mask typeIndex : Z) : Run (Z * Z) := λ w,
  let w' := log (CallMemoryTypeFromProperties typeBits requirements_mask) w in
  match lookup memory_properties typeBits requirements_mask typeIndex with
  | Some answer => Returned answer w'
  | None => Aborted w'
  end.

(** [Helper.memory_type_from_properties] as a behaviour: it leaves the index
    found in [*typeIndex], or does not return; the value 1 stands for what it
    returns, which neither call site reads. *)
Definition Helper_behaviour : LookupBehaviour :=
  λ memory_properties typeBits requirements_mask _,
    match Helper.search
            (VkPhysicalDeviceMemoryProperties.memoryTypes memory_properties)
            0%nat typeBits requirements_mask with
    | Some i => Some (1, Z.of_nat i)
    | None => None
    end.

(** [BufferGPU::BufferGPU], statement by statement, for a helper that behaves
    as [lookup]. *)
Definition BufferGPU_ctor_calling (lookup : LookupBehaviour) (drv : Driver)
    (d : Z) (memory_properties : VkPhysicalDeviceMemoryProperties.t)
    (info : VkBufferCreateInfo.t) : Run BufferGPU.t :=
  let device := d in
  '(_, buffer) ← vkCreateBuffer drv device info;
  mem_reqs ← vkGetBufferMemoryRequirements drv device buffer;
  let memAllocInfo := VkMemoryAllocateInfo.zero in
  let memAllocInfo :=
    VkMemoryAllocateInfo.set_sType memAllocInfo
      VK_STRUCTURE_TYPE_MEMORY_ALLOCATE_INFO in
  let memAllocInfo :=
    VkMemoryAllocateInfo.set_allocationSize memAllocInfo
      (VkMemoryRequirements.size mem_reqs) in
  '(_, typeIndex) ← call_memory_type_from_properties lookup memory_properties
                      (VkMemoryRequirements.memoryTypeBits mem_reqs)
                      VK_MEMORY_PROPERTY_DEVICE_LOCAL_BIT
                      (VkMemoryAllocateInfo.memoryTypeIndex memAllocInfo);
  let memAllocInfo :=
    VkMemoryAllocateInfo.set_memoryTypeIndex memAllocInfo typeIndex in
  '(_, memory) ← vkAllocateMemory drv device memAllocInfo;
  _ ← vkBindBufferMemory drv device buffer memory 0;
  mret (BufferGPU.mk device buffer memory).

(** [TextureGPU::TextureGPU], statement by statement, for a helper that
    behaves as [lookup]. *)
Definition TextureGPU_ctor_calling (lookup : LookupBehaviour) (drv : Driver)
    (d : Z) (memory_properties : VkPhysicalDeviceMemoryProperties.t)
    (image_create_info : VkImageCreateInfo.t) (aspect : Z) : Run TextureGPU.t :=
  let device := d in
  '(_, image) ← vkCreateImage drv device image_create_info;
  mem_reqs ← vkGetImageMemoryRequirements drv device image;
  let memAllocInfo := VkMemoryAllocateInfo.zero in
  let memAllocInfo :=
    VkMemoryAllocateInfo.set_sType memAllocInfo
      VK_STRUCTURE_TYPE_MEMORY_ALLOCATE_INFO in
  let memAllocInfo :=
    VkMemoryAllocateInfo.set_allocationSize memAllocInfo
      (VkMemoryRequirements.size mem_reqs) in
  '(_, typeIndex) ← call_memory_type_from_properties lookup memory_properties
                      (VkMemoryRequirements.memoryTypeBits mem_reqs)
                      VK_MEMORY_PROPERTY_DEVICE_LOCAL_BIT
                      (VkMemoryAllocateInfo.memoryTypeIndex memAllocInfo);
  let memAllocInfo :=
    VkMemoryAllocateInfo.set_memoryTypeIndex memAllocInfo typeIndex in
  '(_, memory) ← vkAllocateMemory drv device memAllocInfo;
  _ ← vkBindImageMemory drv device image memory 0;
  let viewInfo := VkImageViewCreateInfo.zero in
  let viewInfo :=
    VkImageViewCreateInfo.set_sType viewInfo
      VK_STRUCTURE_TYPE_IMAGE_VIEW_CREATE_INFO in
  let viewInfo :=
    VkImageViewCreateInfo.set_viewType viewInfo VK_IMAGE_VIEW_TYPE_2D in
  let viewInfo :=
    VkImageViewCreateInfo.set_format viewInfo
      (VkImageCreateInfo.format image_create_info) in
  let viewInfo :=
    VkImageViewCreateInfo.set_components viewInfo
      (VkComponentMapping.set_r (VkImageViewCreateInfo.components viewInfo)
         VK_COMPONENT_SWIZZLE_R) in
  let viewInfo :=
    VkImageViewCreateInfo.set_components viewInfo
      (VkComponentMapping.set_g (VkImageViewCreateInfo.components viewInfo)
         VK_COMPONENT_SWIZZLE_G) in
  let viewInfo :=
    VkImageViewCreateInfo.set_components viewInfo
      (VkComponentMapping.set_b (VkImageViewCreateInfo.components viewInfo)
         VK_COMPONENT_SWIZZLE_B) in
  let viewInfo :=
    VkImageViewCreateInfo.set_components viewInfo
      (VkComponentMapping.set_a (VkImageViewCreateInfo.components viewInfo)
         VK_COMPONENT_SWIZZLE_A) in
  let viewInfo :=
    VkImageViewCreateInfo.set_subresourceRange viewInfo
      (VkImageSubresourceRange.set_aspectMask
         (VkImageViewCreateInfo.subresourceRange viewInfo) aspect) in
  let viewInfo :=
    VkImageViewCreateInfo.set_subresourceRange viewInfo
      (VkImageSubresourceRange.set_baseMipLevel
         (VkImageViewCreateInfo.subresourceRange viewInfo) 0) in
  let viewInfo :=
    VkImageViewCreateInfo.set_subresourceRange viewInfo
      (VkImageSubresourceRange.set_levelCount
         (VkImageViewCreateInfo.subresourceRange viewInfo) 1) in
  let viewInfo :=
    VkImageViewCreateInfo.set_subresourceRange viewInfo
      (VkImageSubresourceRange.set_baseArrayLayer
         (VkImageViewCreateInfo.subresourceRange viewInfo) 0) in
  let viewInfo :=
    VkImageViewCreateInfo.set_subresourceRange viewInfo
      (VkImageSubresourceRange.set_layerCount
         (VkImageViewCreateInfo.subresourceRange viewInfo) 1) in
  let viewInfo := VkImageViewCreateInfo.set_image viewInfo image in
  '(_, imageView) ← vkCreateImageView drv device viewInfo;
  let viewCreateInfo := viewInfo in
  mret (TextureGPU.mk device image memory imageView viewCreateInfo).

(** ** Notions the properties are stated with *)

(** What a call recorded or logged: the part of [after] past [before]. *)
Definition appended {A : Type} (before after : list A) : list A :=
  drop (length before) after.

(** The image memory barriers of a command sequence, in order. *)
Fixpoint image_barriers (cmds : list Command) : list VkImageMemoryBarrier.t :=
  match cmds with
  | [] => []
  | CmdPipelineBarrier _ _ _ _ _ bs :: rest => bs ++ image_barriers rest
  | _ :: rest => image_barriers rest
  end.

(** The regions of the buffer-to-image copies of a command sequence. *)
Fixpoint image_copy_regions (cmds : list Command) : list VkBufferImageCopy.t :=
  match cmds with
  | [] => []
  | CmdCopyBufferToImage _ _ _ rs :: rest => rs ++ image_copy_regions rest
  | _ :: rest => image_copy_regions rest
  end.

(** How Vulkan addresses the buffer side of a buffer-to-image copy: texel
    [(x, y, z)] of the region is at texel offset
    [(z * imageHeight + y) * rowLength + x], where a [bufferRowLength] or
    [bufferImageHeight] of 0 stands for the corresponding [imageExtent]. *)
Definition rowLength (r : VkBufferImageCopy.t) : Z :=
  if VkBufferImageCopy.bufferRowLength r =? 0
  then VkExtent3D.width (VkBufferImageCopy.imageExtent r)
  else VkBufferImageCopy.bufferRowLength r.

Definition imageHeight (r : VkBufferImageCopy.t) : Z :=
  if VkBufferImageCopy.bufferImageHeight r =? 0
  then VkExtent3D.height (VkBufferImageCopy.imageExtent r)
  else VkBufferImageCopy.bufferImageHeight r.

(** The rows and slices of the region follow each other without padding. *)
Definition tightly_packed (r : VkBufferImageCopy.t) : Prop :=
  rowLength r = VkExtent3D.width (VkBufferImageCopy.imageExtent r)
  ∧ imageHeight r = VkExtent3D.height (VkBufferImageCopy.imageExtent r).

Definition is_FreeMemory (c : Call) : bool :=
  match c with CallFreeMemory _ _ => true | _ => false end.

Definition is_handle_release (c : Call) : bool :=
  match c with
  | CallDestroyBuffer _ _ | CallDestroyImage _ _ | CallDestroyImageView _ _ => true
  | _ => false
  end.

(** No buffer, image or view handle is released once memory has been freed. *)
Fixpoint handles_before_memory (l : list Call) : bool :=
  match l with
  | [] => true
  | c :: rest =>
      if is_FreeMemory c
      then forallb (λ c', negb (is_handle_release c')) rest
      else handles_before_memory rest
  end.

(** [a] is logged at an earlier position than [b]. *)
Definition precedes (a b : Call) (l : list Call) : Prop :=
  ∃ i j : nat, (i < j)%nat ∧ l !! i = Some a ∧ l !! j = Some b.

(** The snapshot has no memory type that is device-local and allowed by
    [typeBits]. *)
Definition no_device_local_type
    (memory_properties : VkPhysicalDeviceMemoryProperties.t) (typeBits : Z) : Prop :=
  ∀ (i : nat) (mt : VkMemoryType.t),
    VkPhysicalDeviceMemoryProperties.memoryTypes memory_properties !! i = Some mt →
    ¬ (Z.testbit typeBits (Z.of_nat i) = true
       ∧ Z.land (VkMemoryType.propertyFlags mt) VK_MEMORY_PROPERTY_DEVICE_LOCAL_BIT
         = VK_MEMORY_PROPERTY_DEVICE_LOCAL_BIT).

(** Memory type [index] of the snapshot is device-local and allowed by
    [typeBits]. *)
Definition device_local_type
    (memory_properties : VkPhysicalDeviceMemoryProperties.t) (typeBits index : Z) : Prop :=
  ∃ mt : VkMemoryType.t,
    (0 <= index)
    ∧ VkPhysicalDeviceMemoryProperties.memoryTypes memory_properties !! Z.to_nat index
      = Some mt
    ∧ Z.testbit typeBits index = true
    ∧ Z.land (VkMemoryType.propertyFlags mt) VK_MEMORY_PROPERTY_DEVICE_LOCAL_BIT
      = VK_MEMORY_PROPERTY_DEVICE_LOCAL_BIT.

(** The driver reports success for every creation and allocation. *)
Definition creations_succeed (drv : Driver) : Prop :=
  fst (answer_vkCreateBuffer drv) = VK_SUCCESS
  ∧ fst (answer_vkCreateImage drv) = VK_SUCCESS
  ∧ fst (answer_vkAllocateMemory drv) = VK_SUCCESS
  ∧ fst (answer_vkCreateImageView drv) = VK_SUCCESS.

(** The object a run handed back, if it returned. *)
Definition outcome_value {A : Type} (o : Outcome A) : option A :=
  match o with Returned a _ => Some a | Aborted _ => None end.

(** The device a run left behind. *)
Definition outcome_world {A : Type} (o : Outcome A) : World :=
  match o with Returned _ w => w | Aborted w => w end.

(** [drv] with other result codes: the same handles and requirements, but
    the [VkResult]s given. *)
Definition with_results (drv : Driver)
    (createBuffer createImage allocateMemory bindBufferMemory bindImageMemory
     createImageView : Z) : Driver :=
  mkDriver (createBuffer, snd (answer_vkCreateBuffer drv))
           (answer_vkGetBufferMemoryRequirements drv)
           (createImage, snd (answer_vkCreateImage drv))
           (answer_vkGetImageMemoryRequirements drv)
           (allocateMemory, snd (answer_vkAllocateMemory drv))
           bindBufferMemory bindImageMemory
           (createImageView, snd (answer_vkCreateImageView drv)).

(** The value of a layout in the [VkImageLayout] enumeration. *)
Definition VkImageLayout_value (l : VkImageLayout) : Z :=
  match l with
  | VK_IMAGE_LAYOUT_UNDEFINED => 0
  | VK_IMAGE_LAYOUT_GENERAL => 1
  | VK_IMAGE_LAYOUT_COLOR_ATTACHMENT_OPTIMAL => 2
  | VK_IMAGE_LAYOUT_DEPTH_STENCIL_ATTACHMENT_OPTIMAL => 3
  | VK_IMAGE_LAYOUT_DEPTH_STENCIL_READ_ONLY_OPTIMAL => 4
  | VK_IMAGE_LAYOUT_SHADER_READ_ONLY_OPTIMAL => 5
  | VK_IMAGE_LAYOUT_TRANSFER_SRC_OPTIMAL => 6
  | VK_IMAGE_LAYOUT_TRANSFER_DST_OPTIMAL => 7
  | VK_IMAGE_LAYOUT_PREINITIALIZED => 8
  end.

(** Vulkan's rule for the [oldLayout] of a layout transition: it is the
    layout the image is in, or [VK_IMAGE_LAYOUT_UNDEFINED] when the contents
    may be discarded. *)
Definition old_layout_ok (oldLayout current : VkImageLayout) : bool :=
  (VkImageLayout_value oldLayout =? VkImageLayout_value current)
  || (VkImageLayout_value oldLayout =? 0).

(** The layout of image [img] after the barriers [bs], when it is in layout
    [current] before them; [None] when a barrier on [img] names an
    [oldLayout] the image is not in. *)
Fixpoint layout_after_barriers (img : Z) (current : VkImageLayout)
    (bs : list VkImageMemoryBarrier.t) : option VkImageLayout :=
  match bs with
  | [] => Some current
  | b :: rest =>
      if VkImageMemoryBarrier.image b =? img
      then
        if old_layout_ok (VkImageMemoryBarrier.oldLayout b) current
        then layout_after_barriers img (VkImageMemoryBarrier.newLayout b) rest
        else None
      else layout_after_barriers img current rest
  end.

(** The layout of image [img] after the commands [cmds], when it is in
    layout [current] before them; [None] when a barrier on [img] or a copy
    into [img] names a layout the image is not in at that point. *)
Fixpoint layout_after (img : Z) (current : VkImageLayout)
    (cmds : list Command) : option VkImageLayout :=
  match cmds with
  | [] => Some current
  | CmdCopyBuffer _ _ _ :: rest => layout_after img current rest
  | CmdPipelineBarrier _ _ _ _ _ bs :: rest =>
      match layout_after_barriers img current bs with
      | Some l => layout_after img l rest
      | None => None
      end
  | CmdCopyBufferToImage _ dstImage dstImageLayout _ :: rest =>
      if dstImage =? img
      then
        if VkImageLayout_value dstImageLayout =? VkImageLayout_value current
        then layout_after img current rest
        else None
      else layout_after img current rest
  end.

(** The subresource [l] that a copy writes lies within the range [r] that a
    barrier covers: no aspect outside the range's, the mip level among its
    levels, the layers among its layers. *)
Definition layers_in_range (l : VkImageSubresourceLayers.t)
    (r : VkImageSubresourceRange.t) : Prop :=
  Z.land (VkImageSubresourceLayers.aspectMask l)
         (VkImageSubresourceRange.aspectMask r)
  = VkImageSubresourceLayers.aspectMask l
  ∧ VkImageSubresourceRange.baseMipLevel r <= VkImageSubresourceLayers.mipLevel l
  ∧ VkImageSubresourceLayers.mipLevel l
    < VkImageSubresourceRange.baseMipLevel r + VkImageSubresourceRange.levelCount r
  ∧ VkImageSubresourceRange.baseArrayLayer r
    <= VkImageSubresourceLayers.baseArrayLayer l
  ∧ VkImageSubresourceLayers.baseArrayLayer l + VkImageSubresourceLayers.layerCount l
    <= VkImageSubresourceRange.baseArrayLayer r + VkImageSubresourceRange.layerCount r.

(** ** Sample inputs *)

Definition no_calls_yet : World := mkWorld ∅ ∅ ∅ ∅ [].

(** Type 0 is host-visible only, type 1 is device-local. *)
Definition sample_properties : VkPhysicalDeviceMemoryProperties.t :=
  VkPhysicalDeviceMemoryProperties.mk
    [VkMemoryType.mk VK_MEMORY_PROPERTY_HOST_VISIBLE_BIT 1;
     VkMemoryType.mk VK_MEMORY_PROPERTY_DEVICE_LOCAL_BIT 0].

(** No device-local type at all. *)
Definition host_only_properties : VkPhysicalDeviceMemoryProperties.t :=
  VkPhysicalDeviceMemoryProperties.mk
    [VkMemoryType.mk VK_MEMORY_PROPERTY_HOST_VISIBLE_BIT 0].

(** Every call succeeds; both resources may live in either memory type. *)
Definition sample_driver : Driver :=
  mkDriver (VK_SUCCESS, 11) (VkMemoryRequirements.mk 1024 256 3)
           (VK_SUCCESS, 21) (VkMemoryRequirements.mk 262144 256 3)
           (VK_SUCCESS, 31) VK_SUCCESS VK_SUCCESS (VK_SUCCESS, 41).

(** As [sample_driver], but the allocation is refused; the memory handle is
    left null. *)
Definition out_of_memory_driver : Driver :=
  mkDriver (VK_SUCCESS, 11) (VkMemoryRequirements.mk 1024 256 3)
           (VK_SUCCESS, 21) (VkMemoryRequirements.mk 262144 256 3)
           (VK_ERROR_OUT_OF_DEVICE_MEMORY, 0) VK_SUCCESS VK_SUCCESS (VK_SUCCESS, 41).

Definition sample_buffer_info : VkBufferCreateInfo.t :=
  VkBufferCreateInfo.mk 0 1024 2 0.

(** A 256 x 256 image of format 37 ([VK_FORMAT_R8G8B8A8_UNORM]). *)
Definition sample_image_info : VkImageCreateInfo.t :=
  VkImageCreateInfo.mk 0 1 37 (VkExtent3D.mk 256 256 1) 1 1 1 1 6 0
    VK_IMAGE_LAYOUT_PREINITIALIZED.

Definition sample_buffer : BufferGPU.t := BufferGPU.mk 1 11 31.

Definition sample_texture : TextureGPU.t :=
  TextureGPU.mk 1 21 31 41
    (VkImageViewCreateInfo.mk VK_STRUCTURE_TYPE_IMAGE_VIEW_CREATE_INFO 0 21
       VK_IMAGE_VIEW_TYPE_2D 37
       (VkComponentMapping.mk VK_COMPONENT_SWIZZLE_R VK_COMPONENT_SWIZZLE_G
          VK_COMPONENT_SWIZZLE_B VK_COMPONENT_SWIZZLE_A)
       (VkImageSubresourceRange.mk VK_IMAGE_ASPECT_COLOR_BIT 0 1 0 1)).

(** A helper that finds nothing and says so: it returns 0 and leaves
    [*typeIndex] as it was. *)
Definition lookup_returning_failure : LookupBehaviour :=
  λ _ _ _ typeIndex, Some (0, typeIndex).

(** * Properties *)

(** ** Conversions *)

Lemma to_uint32_nonneg (z : Z) : 0 <= z → int_range z → to_uint32 z = z.
Proof.
  unfold int_range, to_uint32. intros Hz Hr.
  apply Z.mod_small. lia.
Qed.

Lemma to_uint64_nonneg (z : Z) : 0 <= z → int_range z → to_uint64 z = z.
Proof.
  unfold int_range, to_uint64. intros Hz Hr.
  apply Z.mod_small. lia.
Qed.

Lemma appended_app {A : Type} (l new : list A) : appended l (l ++ new) = new.
Proof. unfold appended. apply drop_app_length. Qed.

(** ** Recording uploads *)

Example Store_sample_texture :
  snd (TextureGPU.Store sample_texture [] 7 256 256)
  = [CmdPipelineBarrier 1 4096 0 [] []
       [VkImageMemoryBarrier.mk VK_STRUCTURE_TYPE_IMAGE_MEMORY_BARRIER 0 4096
          VK_IMAGE_LAYOUT_PREINITIALIZED VK_IMAGE_LAYOUT_TRANSFER_DST_OPTIMAL
          0 0 21 (VkImageSubresourceRange.mk 1 0 1 0 1)];
     CmdCopyBufferToImage 7 21 VK_IMAGE_LAYOUT_TRANSFER_DST_OPTIMAL
       [VkBufferImageCopy.mk 0 256 256 (VkImageSubresourceLayers.mk 1 0 0 1)
          VkOffset3D.zero (VkExtent3D.mk 256 256 1)];
     CmdPipelineBarrier 4096 128 0 [] []
       [VkImageMemoryBarrier.mk VK_STRUCTURE_TYPE_IMAGE_MEMORY_BARRIER 4096 0
          VK_IMAGE_LAYOUT_TRANSFER_DST_OPTIMAL
          VK_IMAGE_LAYOUT_SHADER_READ_ONLY_OPTIMAL
          0 0 21 (VkImageSubresourceRange.mk 1 0 1 0 1)]].
Proof. reflexivity. Qed.

Example Store_sample_buffer :
  snd (BufferGPU.Store sample_buffer [] 7 1024)
  = [CmdCopyBuffer 7 11 [VkBufferCopy.mk 0 0 1024]].
Proof. reflexivity. Qed.

(** What [Store] appends does not depend on what was recorded before. *)
Lemma TextureGPU_Store_appended
    (this : TextureGPU.t) (cmd : list Command) (cpuBuffer width height : Z) :
  appended cmd (snd (TextureGPU.Store this cmd cpuBuffer width height))
  = snd (TextureGPU.Store this [] cpuBuffer width height).
Proof.
  unfold TextureGPU.Store, vkCmdPipelineBarrier, vkCmdCopyBufferToImage.
  cbn [snd]. rewrite <- !app_assoc, appended_app. reflexivity.
Qed.

Lemma BufferGPU_Store_appended
    (this : BufferGPU.t) (cmd : list Command) (cpuBuffer size : Z) :
  appended cmd (snd (BufferGPU.Store this cmd cpuBuffer size))
  = snd (BufferGPU.Store this [] cpuBuffer size).
Proof.
  unfold BufferGPU.Store, vkCmdCopyBuffer.
  cbn [snd]. rewrite appended_app. reflexivity.
Qed.

(** C1: [TextureGPU::Store] appends exactly three commands to the command
    sequence, in this order: a barrier from top-of-pipe to transfer taking
    the access mask from 0 to transfer-write and the layout from
    preinitialized to transfer-destination-optimal; one buffer-to-image copy;
    a barrier from transfer to fragment-shader taking the access mask from
    transfer-write to 0 and the layout from transfer-destination-optimal to
    shader-read-only-optimal. *)
Theorem TextureGPU_Store_barrier_copy_barrier
    (this : TextureGPU.t) (cmd : list Command) (cpuBuffer width height : Z) :
  ∃ (pre post : VkImageMemoryBarrier.t) (region : VkBufferImageCopy.t),
    snd (TextureGPU.Store this cmd cpuBuffer width height)
    = cmd ++
      [CmdPipelineBarrier VK_PIPELINE_STAGE_TOP_OF_PIPE_BIT
         VK_PIPELINE_STAGE_TRANSFER_BIT 0 [] [] [pre];
       CmdCopyBufferToImage cpuBuffer (TextureGPU.image this)
         VK_IMAGE_LAYOUT_TRANSFER_DST_OPTIMAL [region];
       CmdPipelineBarrier VK_PIPELINE_STAGE_TRANSFER_BIT
         VK_PIPELINE_STAGE_FRAGMENT_SHADER_BIT 0 [] [] [post]]
    ∧ VkImageMemoryBarrier.srcAccessMask pre = 0
    ∧ VkImageMemoryBarrier.dstAccessMask pre = VK_ACCESS_TRANSFER_WRITE_BIT
    ∧ VkImageMemoryBarrier.oldLayout pre = VK_IMAGE_LAYOUT_PREINITIALIZED
    ∧ VkImageMemoryBarrier.newLayout pre = VK_IMAGE_LAYOUT_TRANSFER_DST_OPTIMAL
    ∧ VkImageMemoryBarrier.srcAccessMask post = VK_ACCESS_TRANSFER_WRITE_BIT
    ∧ VkImageMemoryBarrier.dstAccessMask post = 0
    ∧ VkImageMemoryBarrier.oldLayout post = VK_IMAGE_LAYOUT_TRANSFER_DST_OPTIMAL
    ∧ VkImageMemoryBarrier.newLayout post = VK_IMAGE_LAYOUT_SHADER_READ_ONLY_OPTIMAL.
Proof.
  eexists _, _, _. split.
  - unfold TextureGPU.Store, vkCmdPipelineBarrier, vkCmdCopyBufferToImage.
    cbn [snd]. rewrite <- !app_assoc. reflexivity.
  - repeat split.
Qed.

(** C2, as the spec words it: the recorded region has row length 0 and image
    height 0.  It has not: for a 256 x 256 upload both are 256. *)
Lemma TextureGPU_Store_row_length_not_zero :
  ∃ region : VkBufferImageCopy.t,
    image_copy_regions (snd (TextureGPU.Store sample_texture [] 7 256 256))
    = [region]
    ∧ VkBufferImageCopy.bufferRowLength region = 256
    ∧ VkBufferImageCopy.bufferImageHeight region = 256
    ∧ VkBufferImageCopy.bufferRowLength region ≠ 0
    ∧ VkBufferImageCopy.bufferImageHeight region ≠ 0.
Proof.
  eexists. split; [reflexivity |].
  repeat split; cbn; discriminate.
Qed.

(** C2, amended: the one buffer-to-image copy that [TextureGPU::Store]
    records, second of its three commands, has [bufferRowLength] = width mod
    2^32 and [bufferImageHeight] = height mod 2^32 (the [int] arguments as
    converted to [uint32_t]: width and height themselves whenever they are
    not negative), where the spec has the constant 0, and its image extent is
    {width mod 2^32, height mod 2^32, 1}.  Row length and image height are
    always those of the extent, so the source is read as a tightly packed
    region.  The copy uses the cached aspect mask, mip level 0, base array
    layer 0, layer count 1, and the destination layout
    transfer-destination-optimal. *)
Theorem TextureGPU_Store_copy_region
    (this : TextureGPU.t) (cmd : list Command) (cpuBuffer width height : Z) :
  ∃ region : VkBufferImageCopy.t,
    image_copy_regions
      (appended cmd (snd (TextureGPU.Store this cmd cpuBuffer width height)))
    = [region]
    ∧ appended cmd (snd (TextureGPU.Store this cmd cpuBuffer width height)) !! 1%nat
      = Some (CmdCopyBufferToImage cpuBuffer (TextureGPU.image this)
                VK_IMAGE_LAYOUT_TRANSFER_DST_OPTIMAL [region])
    ∧ VkBufferImageCopy.bufferOffset region = 0
    ∧ VkBufferImageCopy.bufferRowLength region = to_uint32 width
    ∧ VkBufferImageCopy.bufferImageHeight region = to_uint32 height
    ∧ VkBufferImageCopy.imageExtent region
      = VkExtent3D.mk (to_uint32 width) (to_uint32 height) 1
    ∧ VkBufferImageCopy.imageOffset region = VkOffset3D.zero
    ∧ VkBufferImageCopy.imageSubresource region
      = VkImageSubresourceLayers.mk
          (VkImageSubresourceRange.aspectMask
             (VkImageViewCreateInfo.subresourceRange
                (TextureGPU.viewCreateInfo this)))
          0 0 1
    ∧ tightly_packed region
    ∧ (0 <= width → int_range width → 0 <= height → int_range height →
       VkBufferImageCopy.bufferRowLength region = width
       ∧ VkBufferImageCopy.bufferImageHeight region = height
       ∧ VkBufferImageCopy.imageExtent region = VkExtent3D.mk width height 1).
Proof.
  rewrite TextureGPU_Store_appended.
  eexists. split; [reflexivity |]. split; [reflexivity |].
  cbn. repeat split.
  - unfold rowLength. cbn.
    destruct (to_uint32 width =? 0) eqn:E; [| reflexivity].
    apply Z.eqb_eq in E. congruence.
  - unfold imageHeight. cbn.
    destruct (to_uint32 height =? 0) eqn:E; [| reflexivity].
    apply Z.eqb_eq in E. congruence.
  - now apply to_uint32_nonneg.
  - now apply to_uint32_nonneg.
  - rewrite !to_uint32_nonneg by assumption. reflexivity.
Qed.

(** The amended C2 at a 256 x 256 upload. *)
Lemma TextureGPU_Store_copy_region_256 :
  ∃ region : VkBufferImageCopy.t,
    image_copy_regions (snd (TextureGPU.Store sample_texture [] 7 256 256))
    = [region]
    ∧ VkBufferImageCopy.bufferRowLength region = 256
    ∧ VkBufferImageCopy.bufferImageHeight region = 256
    ∧ VkBufferImageCopy.imageExtent region = VkExtent3D.mk 256 256 1.
Proof.
  destruct (TextureGPU_Store_copy_region sample_texture [] 7 256 256)
    as (region & Hregions & _ & _ & _ & _ & _ & _ & _ & _ & Hnonneg).
  exists region. split; [exact Hregions |].
  apply Hnonneg; unfold int_range; lia.
Defined.

(** C6, as written: the copy size is the given size, for any size.  At size
    -1 the copy recorded has size 2^64 - 1. *)
Lemma BufferGPU_Store_size_converted :
  ∃ copyRegion : VkBufferCopy.t,
    snd (BufferGPU.Store sample_buffer [] 7 (-1))
    = [CmdCopyBuffer 7 11 [copyRegion]]
    ∧ VkBufferCopy.size copyRegion = 18446744073709551615
    ∧ VkBufferCopy.size copyRegion ≠ -1.
Proof.
  eexists. split; [reflexivity |]. cbn. split; [reflexivity | discriminate].
Qed.

(** C6, amended: [BufferGPU::Store], for any size, appends exactly one region
    copy from the staging buffer to the wrapper's buffer, with source offset
    0, destination offset 0 and copy size = size mod 2^64 (the [int] argument
    as converted to [VkDeviceSize]: the given size itself whenever it is not
    negative); nothing relates it to the size the buffer was created with. *)
Theorem BufferGPU_Store_one_copy
    (this : BufferGPU.t) (cmd : list Command) (cpuBuffer size : Z) :
  ∃ copyRegion : VkBufferCopy.t,
    snd (BufferGPU.Store this cmd cpuBuffer size)
    = cmd ++ [CmdCopyBuffer cpuBuffer (BufferGPU.buffer this) [copyRegion]]
    ∧ VkBufferCopy.srcOffset copyRegion = 0
    ∧ VkBufferCopy.dstOffset copyRegion = 0
    ∧ VkBufferCopy.size copyRegion = to_uint64 size
    ∧ (0 <= size → int_range size → VkBufferCopy.size copyRegion = size).
Proof.
  eexists. split; [reflexivity |].
  cbn. repeat split.
  now apply to_uint64_nonneg.
Qed.

(** The amended C6 at a size far beyond the 1024 bytes of the sample buffer. *)
Lemma BufferGPU_Store_one_copy_oversized :
  snd (BufferGPU.Store sample_buffer [] 7 1000000)
  = [CmdCopyBuffer 7 11 [VkBufferCopy.mk 0 0 1000000]].
Proof.
  destruct (BufferGPU_Store_one_copy sample_buffer [] 7 1000000)
    as ([src dst sz] & Hcmd & Hsrc & Hdst & _ & Hsize).
  cbn in Hsrc, Hdst, Hsize. rewrite Hcmd.
  rewrite Hsrc, Hdst, Hsize by (unfold int_range; lia). reflexivity.
Defined.

(** ** Looking up a memory type *)

Section Search.

Variables typeBits requirements_mask : Z.

Lemma suitable_spec (i : nat) (mt : VkMemoryType.t) :
  Helper.suitable typeBits requirements_mask i mt = true
  ↔ Z.testbit typeBits (Z.of_nat i) = true
    ∧ Z.land (VkMemoryType.propertyFlags mt) requirements_mask = requirements_mask.
Proof.
  unfold Helper.suitable. rewrite andb_true_iff, Z.eqb_eq. reflexivity.
Qed.

(** What the search returns is in range and suitable. *)
Lemma search_Some (types : list VkMemoryType.t) :
  ∀ (k i : nat),
    Helper.search types k typeBits requirements_mask = Some i →
    ∃ mt : VkMemoryType.t,
      (k ≤ i)%nat ∧ types !! (i - k)%nat = Some mt
      ∧ Helper.suitable typeBits requirements_mask i mt = true.
Proof.
  induction types as [| mt0 rest IH]; intros k i H; simpl in H.
  - discriminate.
  - destruct (Helper.suitable typeBits requirements_mask k mt0) eqn:E.
    + injection H as <-. exists mt0.
      rewrite Nat.sub_diag. repeat split; [lia | assumption].
    + destruct (IH (S k) i H) as (mt & Hle & Hlookup & Hsuit).
      exists mt. split; [lia |]. split; [| assumption].
      replace (i - k)%nat with (S (i - S k)) by lia. exact Hlookup.
Qed.

(** The search fails only when no type is suitable. *)
Lemma search_None (types : list VkMemoryType.t) :
  ∀ k : nat,
    Helper.search types k typeBits requirements_mask = None →
    ∀ (j : nat) (mt : VkMemoryType.t),
      types !! j = Some mt →
      Helper.suitable typeBits requirements_mask (k + j) mt = false.
Proof.
  induction types as [| mt0 rest IH]; intros k H j mt Hj.
  - rewrite lookup_nil in Hj. discriminate.
  - simpl in H.
    destruct (Helper.suitable typeBits requirements_mask k mt0) eqn:E;
      [discriminate |].
    destruct j as [| j]; simpl in Hj.
    + injection Hj as <-. rewrite Nat.add_0_r. exact E.
    + replace (k + S j)%nat with (S k + j)%nat by lia. now apply IH.
Qed.

(** The search fails whenever no type is suitable. *)
Lemma search_fails (types : list VkMemoryType.t) :
  ∀ k : nat,
    (∀ (j : nat) (mt : VkMemoryType.t),
       types !! j = Some mt →
       Helper.suitable typeBits requirements_mask (k + j) mt = false) →
    Helper.search types k typeBits requirements_mask = None.
Proof.
  induction types as [| mt0 rest IH]; intros k H; simpl.
  - reflexivity.
  - pose proof (H 0%nat mt0 eq_refl) as H0. rewrite Nat.add_0_r in H0.
    rewrite H0. apply IH. intros j mt Hj.
    replace (S k + j)%nat with (k + S j)%nat by lia. now apply H.
Qed.

End Search.

Lemma no_device_local_type_search
    (memory_properties : VkPhysicalDeviceMemoryProperties.t) (typeBits : Z) :
  no_device_local_type memory_properties typeBits →
  Helper.search (VkPhysicalDeviceMemoryProperties.memoryTypes memory_properties)
    0%nat typeBits VK_MEMORY_PROPERTY_DEVICE_LOCAL_BIT = None.
Proof.
  intros Hnone. apply search_fails. intros j mt Hj. cbn [Nat.add].
  destruct (Helper.suitable typeBits VK_MEMORY_PROPERTY_DEVICE_LOCAL_BIT j mt)
    eqn:E; [| reflexivity].
  apply suitable_spec in E. exfalso. exact (Hnone j mt Hj E).
Qed.

Lemma search_device_local_type
    (memory_properties : VkPhysicalDeviceMemoryProperties.t) (typeBits : Z) (i : nat) :
  Helper.search (VkPhysicalDeviceMemoryProperties.memoryTypes memory_properties)
    0%nat typeBits VK_MEMORY_PROPERTY_DEVICE_LOCAL_BIT = Some i →
  device_local_type memory_properties typeBits (Z.of_nat i).
Proof.
  intros H. destruct (search_Some _ _ _ _ _ H) as (mt & _ & Hlookup & Hsuit).
  apply suitable_spec in Hsuit. destruct Hsuit as [Hbit Hflags].
  exists mt. rewrite Nat2Z.id. rewrite Nat.sub_0_r in Hlookup.
  repeat split; [lia | assumption ..].
Qed.

(** ** Running the constructors *)

Ltac run_ctor drv :=
  unfold BufferGPU.ctor, TextureGPU.ctor, mbind, run_bind, mret, run_ret,
    vkCreateBuffer, vkGetBufferMemoryRequirements, vkCreateImage,
    vkGetImageMemoryRequirements, vkAllocateMemory, vkBindBufferMemory,
    vkBindImageMemory, vkCreateImageView,
    Helper.memory_type_from_properties, log;
  destruct drv as [[? ?] ? [? ?] ? [? ?] ? ? [? ?]];
  cbn in *.

(** The calls of a [BufferGPU] construction whose lookup found type [i]. *)
Lemma BufferGPU_ctor_found
    (drv : Driver) (d : Z) (memory_properties : VkPhysicalDeviceMemoryProperties.t)
    (info : VkBufferCreateInfo.t) (w : World) (i : nat) :
  Helper.search (VkPhysicalDeviceMemoryProperties.memoryTypes memory_properties)
    0%nat
    (VkMemoryRequirements.memoryTypeBits (answer_vkGetBufferMemoryRequirements drv))
    VK_MEMORY_PROPERTY_DEVICE_LOCAL_BIT = Some i →
  ∃ w' : World,
    BufferGPU.ctor drv d memory_properties info w
    = Returned (BufferGPU.mk d (snd (answer_vkCreateBuffer drv))
                  (snd (answer_vkAllocateMemory drv))) w'
    ∧ calls w'
      = calls w ++
        [CallCreateBuffer d info;
         CallGetBufferMemoryRequirements d (snd (answer_vkCreateBuffer drv));
         CallMemoryTypeFromProperties
           (VkMemoryRequirements.memoryTypeBits
              (answer_vkGetBufferMemoryRequirements drv))
           VK_MEMORY_PROPERTY_DEVICE_LOCAL_BIT;
         CallAllocateMemory d
           (VkMemoryAllocateInfo.mk VK_STRUCTURE_TYPE_MEMORY_ALLOCATE_INFO
              (VkMemoryRequirements.size
                 (answer_vkGetBufferMemoryRequirements drv))
              (Z.of_nat i));
         CallBindBufferMemory d (snd (answer_vkCreateBuffer drv))
           (snd (answer_vkAllocateMemory drv)) 0]
    ∧ live_buffers w'
      = created (fst (answer_vkCreateBuffer drv)) (snd (answer_vkCreateBuffer drv))
          (live_buffers w)
    ∧ live_memory w'
      = created (fst (answer_vkAllocateMemory drv))
          (snd (answer_vkAllocateMemory drv)) (live_memory w).
Proof.
  intros H. run_ctor drv. rewrite H. cbn.
  eexists. split; [reflexivity |]. cbn.
  rewrite <- !app_assoc. repeat split.
Qed.

(** A [BufferGPU] construction whose lookup found nothing stops there. *)
Lemma BufferGPU_ctor_not_found
    (drv : Driver) (d : Z) (memory_properties : VkPhysicalDeviceMemoryProperties.t)
    (info : VkBufferCreateInfo.t) (w : World) :
  Helper.search (VkPhysicalDeviceMemoryProperties.memoryTypes memory_properties)
    0%nat
    (VkMemoryRequirements.memoryTypeBits (answer_vkGetBufferMemoryRequirements drv))
    VK_MEMORY_PROPERTY_DEVICE_LOCAL_BIT = None →
  ∃ w' : World,
    BufferGPU.ctor drv d memory_properties info w = Aborted w'
    ∧ calls w'
      = calls w ++
        [CallCreateBuffer d info;
         CallGetBufferMemoryRequirements d (snd (answer_vkCreateBuffer drv));
         CallMemoryTypeFromProperties
           (VkMemoryRequirements.memoryTypeBits
              (answer_vkGetBufferMemoryRequirements drv))
           VK_MEMORY_PROPERTY_DEVICE_LOCAL_BIT].
Proof.
  intros H. run_ctor drv. rewrite H.
  eexists. split; [reflexivity |]. cbn.
  rewrite <- !app_assoc. reflexivity.
Qed.

(** The calls of a [TextureGPU] construction whose lookup found type [i]. *)
Lemma TextureGPU_ctor_found
    (drv : Driver) (d : Z) (memory_properties : VkPhysicalDeviceMemoryProperties.t)
    (image_create_info : VkImageCreateInfo.t) (aspect : Z) (w : World) (i : nat) :
  Helper.search (VkPhysicalDeviceMemoryProperties.memoryTypes memory_properties)
    0%nat
    (VkMemoryRequirements.memoryTypeBits (answer_vkGetImageMemoryRequirements drv))
    VK_MEMORY_PROPERTY_DEVICE_LOCAL_BIT = Some i →
  let viewInfo :=
    VkImageViewCreateInfo.mk VK_STRUCTURE_TYPE_IMAGE_VIEW_CREATE_INFO 0
      (snd (answer_vkCreateImage drv)) VK_IMAGE_VIEW_TYPE_2D
      (VkImageCreateInfo.format image_create_info)
      (VkComponentMapping.mk VK_COMPONENT_SWIZZLE_R VK_COMPONENT_SWIZZLE_G
         VK_COMPONENT_SWIZZLE_B VK_COMPONENT_SWIZZLE_A)
      (VkImageSubresourceRange.mk aspect 0 1 0 1) in
  ∃ w' : World,
    TextureGPU.ctor drv d memory_properties image_create_info aspect w
    = Returned (TextureGPU.mk d (snd (answer_vkCreateImage drv))
                  (snd (answer_vkAllocateMemory drv))
                  (snd (answer_vkCreateImageView drv)) viewInfo) w'
    ∧ calls w'
      = calls w ++
        [CallCreateImage d image_create_info;
         CallGetImageMemoryRequirements d (snd (answer_vkCreateImage drv));
         CallMemoryTypeFromProperties
           (VkMemoryRequirements.memoryTypeBits
              (answer_vkGetImageMemoryRequirements drv))
           VK_MEMORY_PROPERTY_DEVICE_LOCAL_BIT;
         CallAllocateMemory d
           (VkMemoryAllocateInfo.mk VK_STRUCTURE_TYPE_MEMORY_ALLOCATE_INFO
              (VkMemoryRequirements.size
                 (answer_vkGetImageMemoryRequirements drv))
              (Z.of_nat i));
         CallBindImageMemory d (snd (answer_vkCreateImage drv))
           (snd (answer_vkAllocateMemory drv)) 0;
         CallCreateImageView d viewInfo]
    ∧ live_images w'
      = created (fst (answer_vkCreateImage drv)) (snd (answer_vkCreateImage drv))
          (live_images w)
    ∧ live_memory w'
      = created (fst (answer_vkAllocateMemory drv))
          (snd (answer_vkAllocateMemory drv)) (live_memory w)
    ∧ live_views w'
      = created (fst (answer_vkCreateImageView drv))
          (snd (answer_vkCreateImageView drv)) (live_views w).
Proof.
  intros H. run_ctor drv. rewrite H. cbn.
  eexists. split; [reflexivity |]. cbn.
  rewrite <- !app_assoc. repeat split.
Qed.

(** A [TextureGPU] construction whose lookup found nothing stops there. *)
Lemma TextureGPU_ctor_not_found
    (drv : Driver) (d : Z) (memory_properties : VkPhysicalDeviceMemoryProperties.t)
    (image_create_info : VkImageCreateInfo.t) (aspect : Z) (w : World) :
  Helper.search (VkPhysicalDeviceMemoryProperties.memoryTypes memory_properties)
    0%nat
    (VkMemoryRequirements.memoryTypeBits (answer_vkGetImageMemoryRequirements drv))
    VK_MEMORY_PROPERTY_DEVICE_LOCAL_BIT = None →
  ∃ w' : World,
    TextureGPU.ctor drv d memory_properties image_create_info aspect w = Aborted w'
    ∧ calls w'
      = calls w ++
        [CallCreateImage d image_create_info;
         CallGetImageMemoryRequirements d (snd (answer_vkCreateImage drv));
         CallMemoryTypeFromProperties
           (VkMemoryRequirements.memoryTypeBits
              (answer_vkGetImageMemoryRequirements drv))
           VK_MEMORY_PROPERTY_DEVICE_LOCAL_BIT].
Proof.
  intros H. run_ctor drv. rewrite H.
  eexists. split; [reflexivity |]. cbn.
  rewrite <- !app_assoc. reflexivity.
Qed.

Lemma BufferGPU_ctor_Returned
    (drv : Driver) (d : Z) (memory_properties : VkPhysicalDeviceMemoryProperties.t)
    (info : VkBufferCreateInfo.t) (w w' : World) (this : BufferGPU.t) :
  BufferGPU.ctor drv d memory_properties info w = Returned this w' →
  ∃ i : nat,
    Helper.search (VkPhysicalDeviceMemoryProperties.memoryTypes memory_properties)
      0%nat
      (VkMemoryRequirements.memoryTypeBits
         (answer_vkGetBufferMemoryRequirements drv))
      VK_MEMORY_PROPERTY_DEVICE_LOCAL_BIT = Some i.
Proof.
  intros H.
  destruct (Helper.search
              (VkPhysicalDeviceMemoryProperties.memoryTypes memory_properties)
              0%nat
              (VkMemoryRequirements.memoryTypeBits
                 (answer_vkGetBufferMemoryRequirements drv))
              VK_MEMORY_PROPERTY_DEVICE_LOCAL_BIT) as [i |] eqn:E.
  - exists i. reflexivity.
  - destruct (BufferGPU_ctor_not_found drv d memory_properties info w E)
      as (wa & Ha & _).
    congruence.
Qed.

Lemma TextureGPU_ctor_Returned
    (drv : Driver) (d : Z) (memory_properties : VkPhysicalDeviceMemoryProperties.t)
    (image_create_info : VkImageCreateInfo.t) (aspect : Z) (w w' : World)
    (this : TextureGPU.t) :
  TextureGPU.ctor drv d memory_properties image_create_info aspect w
  = Returned this w' →
  ∃ i : nat,
    Helper.search (VkPhysicalDeviceMemoryProperties.memoryTypes memory_properties)
      0%nat
      (VkMemoryRequirements.memoryTypeBits
         (answer_vkGetImageMemoryRequirements drv))
      VK_MEMORY_PROPERTY_DEVICE_LOCAL_BIT = Some i.
Proof.
  intros H.
  destruct (Helper.search
              (VkPhysicalDeviceMemoryProperties.memoryTypes memory_properties)
              0%nat
              (VkMemoryRequirements.memoryTypeBits
                 (answer_vkGetImageMemoryRequirements drv))
              VK_MEMORY_PROPERTY_DEVICE_LOCAL_BIT) as [i |] eqn:E.
  - exists i. reflexivity.
  - destruct (TextureGPU_ctor_not_found drv d memory_properties
                image_create_info aspect w E) as (wa & Ha & _).
    congruence.
Qed.

Example BufferGPU_ctor_sample :
  BufferGPU.ctor sample_driver 1 sample_properties sample_buffer_info no_calls_yet
  = Returned sample_buffer
      (mkWorld (created 0 11 ∅) ∅ ∅ (created 0 31 ∅)
         [CallCreateBuffer 1 sample_buffer_info;
          CallGetBufferMemoryRequirements 1 11;
          CallMemoryTypeFromProperties 3 1;
          CallAllocateMemory 1
            (VkMemoryAllocateInfo.mk VK_STRUCTURE_TYPE_MEMORY_ALLOCATE_INFO 1024 1);
          CallBindBufferMemory 1 11 31 0]).
Proof. reflexivity. Qed.

Example TextureGPU_ctor_sample :
  outcome_value
    (TextureGPU.ctor sample_driver 1 sample_properties sample_image_info
       VK_IMAGE_ASPECT_COLOR_BIT no_calls_yet)
  = Some sample_texture.
Proof. reflexivity. Qed.

(** ** Destruction *)

Lemma BufferGPU_dtor_run (this : BufferGPU.t) (w : World) :
  BufferGPU.dtor this w
  = Returned tt
      (mkWorld (live_buffers w ∖ {[BufferGPU.buffer this]}) (live_images w)
         (live_views w) (live_memory w ∖ {[BufferGPU.memory this]})
         (calls w ++
          [CallDestroyBuffer (BufferGPU.device this) (BufferGPU.buffer this);
           CallFreeMemory (BufferGPU.device this) (BufferGPU.memory this)])).
Proof.
  unfold BufferGPU.dtor, mbind, run_bind, vkDestroyBuffer, vkFreeMemory.
  cbn. rewrite <- app_assoc. reflexivity.
Qed.

Lemma TextureGPU_dtor_run (this : TextureGPU.t) (w : World) :
  TextureGPU.dtor this w
  = Returned tt
      (mkWorld (live_buffers w) (live_images w ∖ {[TextureGPU.image this]})
         (live_views w ∖ {[TextureGPU.imageView this]})
         (live_memory w ∖ {[TextureGPU.memory this]})
         (calls w ++
          [CallFreeMemory (TextureGPU.device this) (TextureGPU.memory this);
           CallDestroyImage (TextureGPU.device this) (TextureGPU.image this);
           CallDestroyImageView (TextureGPU.device this)
             (TextureGPU.imageView this)])).
Proof.
  unfold TextureGPU.dtor, mbind, run_bind, vkDestroyImage, vkDestroyImageView,
    vkFreeMemory.
  cbn. rewrite <- !app_assoc. reflexivity.
Qed.

(** C3, as the spec words it: both wrappers release their handles before
    they free the memory.  [TextureGPU::~TextureGPU] frees the memory first:
    the image is destroyed after it, not before. *)
Lemma TextureGPU_dtor_frees_memory_first :
  ∃ w' : World,
    TextureGPU.dtor sample_texture no_calls_yet = Returned tt w'
    ∧ calls w'
      = [CallFreeMemory 1 31; CallDestroyImage 1 21; CallDestroyImageView 1 41]
    ∧ handles_before_memory (calls w') = false
    ∧ precedes (CallFreeMemory 1 31) (CallDestroyImage 1 21) (calls w')
    ∧ ¬ precedes (CallDestroyImage 1 21) (CallFreeMemory 1 31) (calls w').
Proof.
  eexists. split; [reflexivity |]. cbn.
  split; [reflexivity |]. split; [reflexivity |]. split.
  - exists 0%nat, 1%nat. repeat split. lia.
  - intros (i & j & Hlt & Hi & Hj).
    destruct i as [| [| [| i]]]; cbn in Hi; try discriminate.
    destruct j as [| [| [| j]]]; cbn in Hj; try discriminate.
    lia.
Qed.

(** C3, amended: [BufferGPU::~BufferGPU] releases the buffer handle and then
    frees the memory; [TextureGPU::~TextureGPU] frees the memory, then
    destroys the image, then destroys the view. *)
Theorem dtor_release_order
    (buffer : BufferGPU.t) (texture : TextureGPU.t) (w : World) :
  ∃ wb wt : World,
    BufferGPU.dtor buffer w = Returned tt wb
    ∧ appended (calls w) (calls wb)
      = [CallDestroyBuffer (BufferGPU.device buffer) (BufferGPU.buffer buffer);
         CallFreeMemory (BufferGPU.device buffer) (BufferGPU.memory buffer)]
    ∧ handles_before_memory (appended (calls w) (calls wb)) = true
    ∧ TextureGPU.dtor texture w = Returned tt wt
    ∧ appended (calls w) (calls wt)
      = [CallFreeMemory (TextureGPU.device texture) (TextureGPU.memory texture);
         CallDestroyImage (TextureGPU.device texture) (TextureGPU.image texture);
         CallDestroyImageView (TextureGPU.device texture)
           (TextureGPU.imageView texture)]
    ∧ handles_before_memory (appended (calls w) (calls wt)) = false.
Proof.
  eexists _, _.
  split; [apply BufferGPU_dtor_run |]. cbn [calls]. rewrite appended_app.
  split; [reflexivity |]. split; [reflexivity |].
  split; [apply TextureGPU_dtor_run |]. cbn [calls]. rewrite appended_app.
  split; reflexivity.
Qed.

(** ** Construction *)

Lemma host_only_no_device_local_type (typeBits : Z) :
  no_device_local_type host_only_properties typeBits.
Proof.
  intros i mt Hlookup [_ Hflags].
  destruct i as [| i]; cbn in Hlookup.
  - injection Hlookup as <-. cbn in Hflags. discriminate.
  - discriminate.
Qed.

(** C4: when the snapshot has no memory type that is device-local and allowed
    by the queried requirement bitmask, the construction of a [BufferGPU] and
    that of a [TextureGPU] are aborted at the lookup, before any memory is
    allocated; and a construction that returns has allocated from a memory
    type that is device-local and allowed by the bitmask. *)
Theorem ctor_memory_type
    (drv : Driver) (d : Z) (memory_properties : VkPhysicalDeviceMemoryProperties.t)
    (info : VkBufferCreateInfo.t) (image_create_info : VkImageCreateInfo.t)
    (aspect : Z) (w : World) :
  (no_device_local_type memory_properties
     (VkMemoryRequirements.memoryTypeBits
        (answer_vkGetBufferMemoryRequirements drv)) →
   ∃ w' : World,
     BufferGPU.ctor drv d memory_properties info w = Aborted w'
     ∧ ∀ dev a, CallAllocateMemory dev a ∉ appended (calls w) (calls w'))
  ∧ (no_device_local_type memory_properties
       (VkMemoryRequirements.memoryTypeBits
          (answer_vkGetImageMemoryRequirements drv)) →
     ∃ w' : World,
       TextureGPU.ctor drv d memory_properties image_create_info aspect w
       = Aborted w'
       ∧ ∀ dev a, CallAllocateMemory dev a ∉ appended (calls w) (calls w'))
  ∧ (∀ (this : BufferGPU.t) (w' : World),
       BufferGPU.ctor drv d memory_properties info w = Returned this w' →
       ∃ a : VkMemoryAllocateInfo.t,
         appended (calls w) (calls w') !! 3%nat = Some (CallAllocateMemory d a)
         ∧ device_local_type memory_properties
             (VkMemoryRequirements.memoryTypeBits
                (answer_vkGetBufferMemoryRequirements drv))
             (VkMemoryAllocateInfo.memoryTypeIndex a))
  ∧ (∀ (this : TextureGPU.t) (w' : World),
       TextureGPU.ctor drv d memory_properties image_create_info aspect w
       = Returned this w' →
       ∃ a : VkMemoryAllocateInfo.t,
         appended (calls w) (calls w') !! 3%nat = Some (CallAllocateMemory d a)
         ∧ device_local_type memory_properties
             (VkMemoryRequirements.memoryTypeBits
                (answer_vkGetImageMemoryRequirements drv))
             (VkMemoryAllocateInfo.memoryTypeIndex a)).
Proof.
  repeat split.
  - intros Hnone. apply no_device_local_type_search in Hnone.
    destruct (BufferGPU_ctor_not_found drv d memory_properties info w Hnone)
      as (w' & Hrun & Hcalls).
    exists w'. split; [exact Hrun |].
    intros dev a Hin. rewrite Hcalls, appended_app in Hin.
    repeat (apply elem_of_cons in Hin as [Hin | Hin]; [discriminate |]).
    now apply elem_of_nil in Hin.
  - intros Hnone. apply no_device_local_type_search in Hnone.
    destruct (TextureGPU_ctor_not_found drv d memory_properties
                image_create_info aspect w Hnone) as (w' & Hrun & Hcalls).
    exists w'. split; [exact Hrun |].
    intros dev a Hin. rewrite Hcalls, appended_app in Hin.
    repeat (apply elem_of_cons in Hin as [Hin | Hin]; [discriminate |]).
    now apply elem_of_nil in Hin.
  - intros this w' Hrun.
    destruct (BufferGPU_ctor_Returned _ _ _ _ _ _ _ Hrun) as [i Hi].
    destruct (BufferGPU_ctor_found drv d memory_properties info w i Hi)
      as (w2 & Hrun2 & Hcalls & _).
    rewrite Hrun in Hrun2. injection Hrun2 as _ <-.
    eexists. rewrite Hcalls, appended_app. split; [reflexivity |].
    cbn. now apply search_device_local_type.
  - intros this w' Hrun.
    destruct (TextureGPU_ctor_Returned _ _ _ _ _ _ _ _ Hrun) as [i Hi].
    destruct (TextureGPU_ctor_found drv d memory_properties image_create_info
                aspect w i Hi) as (w2 & Hrun2 & Hcalls & _).
    rewrite Hrun in Hrun2. injection Hrun2 as _ <-.
    eexists. rewrite Hcalls, appended_app. split; [reflexivity |].
    cbn. now apply search_device_local_type.
Qed.

(** C4 on a device without device-local memory, and on the sample device,
    where type 1 is selected. *)
Lemma ctor_memory_type_samples :
  (∃ w' : World,
     BufferGPU.ctor sample_driver 1 host_only_properties sample_buffer_info
       no_calls_yet = Aborted w')
  ∧ (∃ w' : World,
       TextureGPU.ctor sample_driver 1 host_only_properties sample_image_info
         VK_IMAGE_ASPECT_COLOR_BIT no_calls_yet = Aborted w')
  ∧ (∃ a : VkMemoryAllocateInfo.t,
       VkMemoryAllocateInfo.memoryTypeIndex a = 1
       ∧ device_local_type sample_properties 3
           (VkMemoryAllocateInfo.memoryTypeIndex a)).
Proof.
  destruct (ctor_memory_type sample_driver 1 host_only_properties
              sample_buffer_info sample_image_info VK_IMAGE_ASPECT_COLOR_BIT
              no_calls_yet) as (Hb & Ht & _ & _).
  destruct (ctor_memory_type sample_driver 1 sample_properties
              sample_buffer_info sample_image_info VK_IMAGE_ASPECT_COLOR_BIT
              no_calls_yet) as (_ & _ & Hsel & _).
  split; [| split].
  - destruct (Hb (host_only_no_device_local_type _)) as (w' & Hrun & _).
    exists w'. exact Hrun.
  - destruct (Ht (host_only_no_device_local_type _)) as (w' & Hrun & _).
    exists w'. exact Hrun.
  - destruct (Hsel _ _ BufferGPU_ctor_sample) as (a & Hcall & Hok).
    exists a. split; [| exact Hok].
    cbn in Hcall. injection Hcall as <-. reflexivity.
Defined.

(** C5: a constructed [TextureGPU] has a 2D view descriptor, the one its view
    was created from, whose subresource range is the supplied aspect mask with
    base mip level 0, level count 1, base array layer 0 and layer count 1,
    whose component mapping is R, G, B, A, and whose format is that of the
    image descriptor, whatever the descriptor's dimensions. *)
Theorem TextureGPU_ctor_view
    (drv : Driver) (d : Z) (memory_properties : VkPhysicalDeviceMemoryProperties.t)
    (image_create_info : VkImageCreateInfo.t) (aspect : Z) (w w' : World)
    (this : TextureGPU.t) :
  TextureGPU.ctor drv d memory_properties image_create_info aspect w
  = Returned this w' →
  last (calls w')
  = Some (CallCreateImageView d (TextureGPU.viewCreateInfo this))
  ∧ VkImageViewCreateInfo.viewType (TextureGPU.viewCreateInfo this)
    = VK_IMAGE_VIEW_TYPE_2D
  ∧ VkImageViewCreateInfo.image (TextureGPU.viewCreateInfo this)
    = TextureGPU.image this
  ∧ VkImageViewCreateInfo.format (TextureGPU.viewCreateInfo this)
    = VkImageCreateInfo.format image_create_info
  ∧ VkImageViewCreateInfo.components (TextureGPU.viewCreateInfo this)
    = VkComponentMapping.mk VK_COMPONENT_SWIZZLE_R VK_COMPONENT_SWIZZLE_G
        VK_COMPONENT_SWIZZLE_B VK_COMPONENT_SWIZZLE_A
  ∧ VkImageSubresourceRange.aspectMask
      (VkImageViewCreateInfo.subresourceRange (TextureGPU.viewCreateInfo this))
    = aspect
  ∧ VkImageSubresourceRange.baseMipLevel
      (VkImageViewCreateInfo.subresourceRange (TextureGPU.viewCreateInfo this))
    = 0
  ∧ VkImageSubresourceRange.levelCount
      (VkImageViewCreateInfo.subresourceRange (TextureGPU.viewCreateInfo this))
    = 1
  ∧ VkImageSubresourceRange.baseArrayLayer
      (VkImageViewCreateInfo.subresourceRange (TextureGPU.viewCreateInfo this))
    = 0
  ∧ VkImageSubresourceRange.layerCount
      (VkImageViewCreateInfo.subresourceRange (TextureGPU.viewCreateInfo this))
    = 1.
Proof.
  intros Hrun.
  destruct (TextureGPU_ctor_Returned _ _ _ _ _ _ _ _ Hrun) as [i Hi].
  destruct (TextureGPU_ctor_found drv d memory_properties image_create_info
              aspect w i Hi) as (w2 & Hrun2 & Hcalls & _).
  rewrite Hrun in Hrun2. injection Hrun2 as -> ->.
  rewrite Hcalls. cbn [TextureGPU.viewCreateInfo].
  split.
  - rewrite last_app. reflexivity.
  - repeat split.
Qed.

(** C5 on the sample 256 x 256 colour image. *)
Lemma TextureGPU_ctor_view_sample :
  VkImageViewCreateInfo.viewType (TextureGPU.viewCreateInfo sample_texture)
  = VK_IMAGE_VIEW_TYPE_2D
  ∧ VkImageViewCreateInfo.subresourceRange (TextureGPU.viewCreateInfo sample_texture)
    = VkImageSubresourceRange.mk VK_IMAGE_ASPECT_COLOR_BIT 0 1 0 1
  ∧ VkImageViewCreateInfo.format (TextureGPU.viewCreateInfo sample_texture) = 37.
Proof.
  pose proof (TextureGPU_ctor_view sample_driver 1 sample_properties
                sample_image_info VK_IMAGE_ASPECT_COLOR_BIT no_calls_yet
                _ sample_texture eq_refl) as H.
  destruct H as (_ & Hty & _ & Hfmt & _ & Ha & Hm & Hl & Hb & Hn).
  split; [exact Hty |]. split; [| exact Hfmt].
  destruct (VkImageViewCreateInfo.subresourceRange
              (TextureGPU.viewCreateInfo sample_texture)).
  cbn in Ha, Hm, Hl, Hb, Hn. congruence.
Defined.

(** C7: the two barriers that [TextureGPU::Store] records carry the image
    handle and the subresource range of the cached view descriptor, and are
    the same whatever the arguments of [Store]; for a constructed object the
    cached handle is the image created and the cached range is the one set at
    construction. *)
Theorem TextureGPU_Store_barriers_from_cache
    (this : TextureGPU.t) (cmd : list Command) (cpuBuffer width height : Z) :
  ∃ pre post : VkImageMemoryBarrier.t,
    image_barriers
      (appended cmd (snd (TextureGPU.Store this cmd cpuBuffer width height)))
    = [pre; post]
    ∧ VkImageMemoryBarrier.image pre
      = VkImageViewCreateInfo.image (TextureGPU.viewCreateInfo this)
    ∧ VkImageMemoryBarrier.subresourceRange pre
      = VkImageViewCreateInfo.subresourceRange (TextureGPU.viewCreateInfo this)
    ∧ VkImageMemoryBarrier.image post
      = VkImageViewCreateInfo.image (TextureGPU.viewCreateInfo this)
    ∧ VkImageMemoryBarrier.subresourceRange post
      = VkImageViewCreateInfo.subresourceRange (TextureGPU.viewCreateInfo this)
    ∧ (∀ (cmd' : list Command) (cpuBuffer' width' height' : Z),
         image_barriers
           (appended cmd'
              (snd (TextureGPU.Store this cmd' cpuBuffer' width' height')))
         = [pre; post])
    ∧ (∀ (drv : Driver) (d : Z)
         (memory_properties : VkPhysicalDeviceMemoryProperties.t)
         (image_create_info : VkImageCreateInfo.t) (aspect : Z) (w w' : World),
         TextureGPU.ctor drv d memory_properties image_create_info aspect w
         = Returned this w' →
         VkImageMemoryBarrier.image pre = snd (answer_vkCreateImage drv)
         ∧ VkImageMemoryBarrier.image post = snd (answer_vkCreateImage drv)
         ∧ VkImageMemoryBarrier.subresourceRange pre
           = VkImageSubresourceRange.mk aspect 0 1 0 1
         ∧ VkImageMemoryBarrier.subresourceRange post
           = VkImageSubresourceRange.mk aspect 0 1 0 1).
Proof.
  rewrite TextureGPU_Store_appended.
  eexists _, _. split; [reflexivity |].
  do 4 (split; [reflexivity |]).
  split.
  - intros cmd' cpuBuffer' width' height'.
    rewrite TextureGPU_Store_appended. reflexivity.
  - intros drv d memory_properties image_create_info aspect w w' Hrun.
    destruct (TextureGPU_ctor_Returned _ _ _ _ _ _ _ _ Hrun) as [i Hi].
    destruct (TextureGPU_ctor_found drv d memory_properties image_create_info
                aspect w i Hi) as (w2 & Hrun2 & _).
    rewrite Hrun in Hrun2. injection Hrun2 as -> ->.
    repeat split.
Qed.

(** C7 on the sample texture, as constructed on the sample device. *)
Lemma TextureGPU_Store_barriers_from_cache_sample :
  ∃ pre post : VkImageMemoryBarrier.t,
    image_barriers (snd (TextureGPU.Store sample_texture [] 7 256 256))
    = [pre; post]
    ∧ VkImageMemoryBarrier.image pre = 21
    ∧ VkImageMemoryBarrier.image post = 21
    ∧ VkImageMemoryBarrier.subresourceRange pre
      = VkImageSubresourceRange.mk VK_IMAGE_ASPECT_COLOR_BIT 0 1 0 1
    ∧ VkImageMemoryBarrier.subresourceRange post
      = VkImageSubresourceRange.mk VK_IMAGE_ASPECT_COLOR_BIT 0 1 0 1.
Proof.
  destruct (TextureGPU_Store_barriers_from_cache sample_texture [] 7 256 256)
    as (pre & post & Hbarriers & _ & _ & _ & _ & _ & Hctor).
  exists pre, post. split; [exact Hbarriers |].
  destruct (Hctor sample_driver 1 sample_properties sample_image_info
              VK_IMAGE_ASPECT_COLOR_BIT no_calls_yet _ eq_refl)
    as (Hpre & Hpost & Hrpre & Hrpost).
  repeat split; assumption.
Defined.

(** C10: neither [Store] changes its own object, and either leaves what was
    already recorded in the command sequence in place, adding to its end. *)
Theorem Store_changes_no_field
    (buffer : BufferGPU.t) (texture : TextureGPU.t) (cmd : list Command)
    (cpuBuffer size width height : Z) :
  fst (BufferGPU.Store buffer cmd cpuBuffer size) = buffer
  ∧ fst (TextureGPU.Store texture cmd cpuBuffer width height) = texture
  ∧ snd (BufferGPU.Store buffer cmd cpuBuffer size)
    = cmd ++ snd (BufferGPU.Store buffer [] cpuBuffer size)
  ∧ snd (TextureGPU.Store texture cmd cpuBuffer width height)
    = cmd ++ snd (TextureGPU.Store texture [] cpuBuffer width height).
Proof.
  split; [reflexivity |]. split; [reflexivity |]. split.
  - reflexivity.
  - unfold TextureGPU.Store, vkCmdPipelineBarrier, vkCmdCopyBufferToImage.
    cbn [snd]. rewrite <- !app_assoc. reflexivity.
Qed.

(** C8, as the spec words it: once construction completes the handles of a
    wrapper are all valid.  When the allocation is refused, construction
    completes all the same, with a live buffer (or image and view) and a
    memory handle that is not alive. *)
Lemma ctor_completes_partially_valid :
  outcome_value
    (BufferGPU.ctor out_of_memory_driver 1 sample_properties sample_buffer_info
       no_calls_yet)
  = Some (BufferGPU.mk 1 11 0)
  ∧ (11 ∈ live_buffers
            (outcome_world
               (BufferGPU.ctor out_of_memory_driver 1 sample_properties
                  sample_buffer_info no_calls_yet)))
  ∧ (0 ∉ live_memory
           (outcome_world
              (BufferGPU.ctor out_of_memory_driver 1 sample_properties
                 sample_buffer_info no_calls_yet)))
  ∧ ¬ BufferGPU.valid
        (outcome_world
           (BufferGPU.ctor out_of_memory_driver 1 sample_properties
              sample_buffer_info no_calls_yet))
        (BufferGPU.mk 1 11 0)
  ∧ outcome_value
      (TextureGPU.ctor out_of_memory_driver 1 sample_properties
         sample_image_info VK_IMAGE_ASPECT_COLOR_BIT no_calls_yet)
    = Some (TextureGPU.mk 1 21 0 41 (TextureGPU.viewCreateInfo sample_texture))
  ∧ (21 ∈ live_images
            (outcome_world
               (TextureGPU.ctor out_of_memory_driver 1 sample_properties
                  sample_image_info VK_IMAGE_ASPECT_COLOR_BIT no_calls_yet)))
  ∧ (41 ∈ live_views
            (outcome_world
               (TextureGPU.ctor out_of_memory_driver 1 sample_properties
                  sample_image_info VK_IMAGE_ASPECT_COLOR_BIT no_calls_yet)))
  ∧ (0 ∉ live_memory
           (outcome_world
              (TextureGPU.ctor out_of_memory_driver 1 sample_properties
                 sample_image_info VK_IMAGE_ASPECT_COLOR_BIT no_calls_yet))).
Proof.
  split; [reflexivity |].
  split; [cbn; apply elem_of_union_l, elem_of_singleton_2; reflexivity |].
  split; [cbn; apply not_elem_of_empty |].
  split; [intros [_ Hmemory]; cbn in Hmemory; now apply not_elem_of_empty in Hmemory |].
  split; [reflexivity |].
  split; [cbn; apply elem_of_union_l, elem_of_singleton_2; reflexivity |].
  split; [cbn; apply elem_of_union_l, elem_of_singleton_2; reflexivity |].
  cbn; apply not_elem_of_empty.
Qed.

(** C8, amended: when the driver reports success for every creation and
    allocation, the handles of a constructed wrapper are all valid; [Store]
    leaves the wrapper as it is; and after destruction all of the wrapper's
    handles are released. *)
Theorem handles_share_one_lifecycle
    (drv : Driver) (d : Z) (memory_properties : VkPhysicalDeviceMemoryProperties.t)
    (info : VkBufferCreateInfo.t) (image_create_info : VkImageCreateInfo.t)
    (aspect : Z) (w : World) :
  creations_succeed drv →
  (∀ (this : BufferGPU.t) (w' : World),
     BufferGPU.ctor drv d memory_properties info w = Returned this w' →
     BufferGPU.valid w' this
     ∧ (∀ (cmd : list Command) (cpuBuffer size : Z),
          fst (BufferGPU.Store this cmd cpuBuffer size) = this)
     ∧ (∀ w2 : World,
          outcome_value (BufferGPU.dtor this w2) = Some tt
          ∧ BufferGPU.released (outcome_world (BufferGPU.dtor this w2)) this))
  ∧ (∀ (this : TextureGPU.t) (w' : World),
       TextureGPU.ctor drv d memory_properties image_create_info aspect w
       = Returned this w' →
       TextureGPU.valid w' this
       ∧ (∀ (cmd : list Command) (cpuBuffer width height : Z),
            fst (TextureGPU.Store this cmd cpuBuffer width height) = this)
       ∧ (∀ w2 : World,
            outcome_value (TextureGPU.dtor this w2) = Some tt
            ∧ TextureGPU.released (outcome_world (TextureGPU.dtor this w2)) this)).
Proof.
  intros (Hbuffer & Himage & Hmemory & Hview). split.
  - intros this w' Hrun.
    destruct (BufferGPU_ctor_Returned _ _ _ _ _ _ _ Hrun) as [i Hi].
    destruct (BufferGPU_ctor_found drv d memory_properties info w i Hi)
      as (w2 & Hrun2 & _ & Hlb & Hlm).
    rewrite Hrun in Hrun2. injection Hrun2 as -> ->.
    split; [| split].
    + unfold BufferGPU.valid. rewrite Hlb, Hlm, Hbuffer, Hmemory.
      cbn. split; apply elem_of_union_l, elem_of_singleton_2; reflexivity.
    + reflexivity.
    + intros w3. rewrite BufferGPU_dtor_run. split; [reflexivity |].
      unfold BufferGPU.released. cbn.
      split; apply not_elem_of_difference; right;
        apply elem_of_singleton_2; reflexivity.
  - intros this w' Hrun.
    destruct (TextureGPU_ctor_Returned _ _ _ _ _ _ _ _ Hrun) as [i Hi].
    destruct (TextureGPU_ctor_found drv d memory_properties image_create_info
                aspect w i Hi) as (w2 & Hrun2 & _ & Hli & Hlm & Hlv).
    rewrite Hrun in Hrun2. injection Hrun2 as -> ->.
    split; [| split].
    + unfold TextureGPU.valid. rewrite Hli, Hlm, Hlv, Himage, Hmemory, Hview.
      cbn. repeat split; apply elem_of_union_l, elem_of_singleton_2; reflexivity.
    + reflexivity.
    + intros w3. rewrite TextureGPU_dtor_run. split; [reflexivity |].
      unfold TextureGPU.released. cbn.
      repeat split; apply not_elem_of_difference; right;
        apply elem_of_singleton_2; reflexivity.
Qed.

Lemma sample_driver_succeeds : creations_succeed sample_driver.
Proof. repeat split. Qed.

(** The amended C8 on the sample device. *)
Lemma handles_share_one_lifecycle_sample :
  creations_succeed sample_driver
  ∧ (∃ w' : World,
       BufferGPU.ctor sample_driver 1 sample_properties sample_buffer_info
         no_calls_yet = Returned sample_buffer w'
       ∧ BufferGPU.valid w' sample_buffer
       ∧ BufferGPU.released (outcome_world (BufferGPU.dtor sample_buffer w'))
           sample_buffer).
Proof.
  split; [exact sample_driver_succeeds |].
  eexists. split; [exact BufferGPU_ctor_sample |].
  destruct (handles_share_one_lifecycle sample_driver 1 sample_properties
              sample_buffer_info sample_image_info VK_IMAGE_ASPECT_COLOR_BIT
              no_calls_yet sample_driver_succeeds) as [Hb _].
  destruct (Hb _ _ BufferGPU_ctor_sample) as (Hvalid & _ & Hreleased).
  split; [exact Hvalid |]. apply Hreleased.
Defined.

(** ** The call sites of the constructors *)

Ltac run_ctor_calling drv :=
  unfold BufferGPU_ctor_calling, TextureGPU_ctor_calling,
    call_memory_type_from_properties, mbind, run_bind, mret, run_ret,
    vkCreateBuffer, vkGetBufferMemoryRequirements, vkCreateImage,
    vkGetImageMemoryRequirements, vkAllocateMemory, vkBindBufferMemory,
    vkBindImageMemory, vkCreateImageView, log;
  destruct drv as [[? ?] ? [? ?] ? [? ?] ? ? [? ?]];
  cbn in *.

(** [BufferGPU.ctor] is [BufferGPU_ctor_calling] for the helper as modelled. *)
Lemma BufferGPU_ctor_calling_Helper
    (drv : Driver) (d : Z) (memory_properties : VkPhysicalDeviceMemoryProperties.t)
    (info : VkBufferCreateInfo.t) (w : World) :
  BufferGPU.ctor drv d memory_properties info w
  = BufferGPU_ctor_calling Helper_behaviour drv d memory_properties info w.
Proof.
  run_ctor drv.
  unfold BufferGPU_ctor_calling, call_memory_type_from_properties,
    Helper_behaviour, mbind, run_bind, mret, run_ret, vkCreateBuffer,
    vkGetBufferMemoryRequirements, vkAllocateMemory, vkBindBufferMemory, log.
  cbn. destruct (Helper.search _ _ _ _); reflexivity.
Qed.

(** [TextureGPU.ctor] is [TextureGPU_ctor_calling] for the helper as
    modelled. *)
Lemma TextureGPU_ctor_calling_Helper
    (drv : Driver) (d : Z) (memory_properties : VkPhysicalDeviceMemoryProperties.t)
    (image_create_info : VkImageCreateInfo.t) (aspect : Z) (w : World) :
  TextureGPU.ctor drv d memory_properties image_create_info aspect w
  = TextureGPU_ctor_calling Helper_behaviour drv d memory_properties
      image_create_info aspect w.
Proof.
  run_ctor drv.
  unfold TextureGPU_ctor_calling, call_memory_type_from_properties,
    Helper_behaviour, mbind, run_bind, mret, run_ret, vkCreateImage,
    vkGetImageMemoryRequirements, vkAllocateMemory, vkBindImageMemory,
    vkCreateImageView, log.
  cbn. destruct (Helper.search _ _ _ _); reflexivity.
Qed.

(** C9: in both constructors what each call hands back is discarded at the
    call site.  With any other result codes of the Vulkan calls the same
    object is built and the same calls are issued with the same arguments;
    and whatever value the memory-type lookup returns to its caller, success
    or failure, every later step runs, in the order of the source, with the
    index the lookup left in [memAllocInfo.memoryTypeIndex], and the
    constructor hands back the object, with no status.  This holds for any
    behaviour of the helper, the one modelled included. *)
Theorem ctor_discards_result_codes
    (lookup : LookupBehaviour) (drv : Driver) (d : Z)
    (memory_properties : VkPhysicalDeviceMemoryProperties.t)
    (info : VkBufferCreateInfo.t) (image_create_info : VkImageCreateInfo.t)
    (aspect : Z) (w : World)
    (createBuffer createImage allocateMemory bindBufferMemory bindImageMemory
     createImageView : Z) :
  outcome_value
    (BufferGPU_ctor_calling lookup
       (with_results drv createBuffer createImage allocateMemory
          bindBufferMemory bindImageMemory createImageView)
       d memory_properties info w)
  = outcome_value (BufferGPU_ctor_calling lookup drv d memory_properties info w)
  ∧ calls (outcome_world
             (BufferGPU_ctor_calling lookup
                (with_results drv createBuffer createImage allocateMemory
                   bindBufferMemory bindImageMemory createImageView)
                d memory_properties info w))
    = calls (outcome_world
               (BufferGPU_ctor_calling lookup drv d memory_properties info w))
  ∧ outcome_value
      (TextureGPU_ctor_calling lookup
         (with_results drv createBuffer createImage allocateMemory
            bindBufferMemory bindImageMemory createImageView)
         d memory_properties image_create_info aspect w)
    = outcome_value
        (TextureGPU_ctor_calling lookup drv d memory_properties
           image_create_info aspect w)
  ∧ calls (outcome_world
             (TextureGPU_ctor_calling lookup
                (with_results drv createBuffer createImage allocateMemory
                   bindBufferMemory bindImageMemory createImageView)
                d memory_properties image_create_info aspect w))
    = calls (outcome_world
               (TextureGPU_ctor_calling lookup drv d memory_properties
                  image_create_info aspect w))
  ∧ (∀ returned typeIndex : Z,
       lookup memory_properties
         (VkMemoryRequirements.memoryTypeBits
            (answer_vkGetBufferMemoryRequirements drv))
         VK_MEMORY_PROPERTY_DEVICE_LOCAL_BIT 0
       = Some (returned, typeIndex) →
       outcome_value
         (BufferGPU_ctor_calling lookup drv d memory_properties info w)
       = Some (BufferGPU.mk d (snd (answer_vkCreateBuffer drv))
                 (snd (answer_vkAllocateMemory drv)))
       ∧ appended (calls w)
           (calls (outcome_world
                     (BufferGPU_ctor_calling lookup drv d memory_properties
                        info w)))
         = [CallCreateBuffer d info;
            CallGetBufferMemoryRequirements d (snd (answer_vkCreateBuffer drv));
            CallMemoryTypeFromProperties
              (VkMemoryRequirements.memoryTypeBits
                 (answer_vkGetBufferMemoryRequirements drv))
              VK_MEMORY_PROPERTY_DEVICE_LOCAL_BIT;
            CallAllocateMemory d
              (VkMemoryAllocateInfo.mk VK_STRUCTURE_TYPE_MEMORY_ALLOCATE_INFO
                 (VkMemoryRequirements.size
                    (answer_vkGetBufferMemoryRequirements drv))
                 typeIndex);
            CallBindBufferMemory d (snd (answer_vkCreateBuffer drv))
              (snd (answer_vkAllocateMemory drv)) 0])
  ∧ (∀ returned typeIndex : Z,
       lookup memory_properties
         (VkMemoryRequirements.memoryTypeBits
            (answer_vkGetImageMemoryRequirements drv))
         VK_MEMORY_PROPERTY_DEVICE_LOCAL_BIT 0
       = Some (returned, typeIndex) →
       ∃ this : TextureGPU.t,
         outcome_value
           (TextureGPU_ctor_calling lookup drv d memory_properties
              image_create_info aspect w)
         = Some this
         ∧ TextureGPU.image this = snd (answer_vkCreateImage drv)
         ∧ TextureGPU.memory this = snd (answer_vkAllocateMemory drv)
         ∧ TextureGPU.imageView this = snd (answer_vkCreateImageView drv)
         ∧ appended (calls w)
             (calls (outcome_world
                       (TextureGPU_ctor_calling lookup drv d memory_properties
                          image_create_info aspect w)))
           = [CallCreateImage d image_create_info;
              CallGetImageMemoryRequirements d (snd (answer_vkCreateImage drv));
              CallMemoryTypeFromProperties
                (VkMemoryRequirements.memoryTypeBits
                   (answer_vkGetImageMemoryRequirements drv))
                VK_MEMORY_PROPERTY_DEVICE_LOCAL_BIT;
              CallAllocateMemory d
                (VkMemoryAllocateInfo.mk VK_STRUCTURE_TYPE_MEMORY_ALLOCATE_INFO
                   (VkMemoryRequirements.size
                      (answer_vkGetImageMemoryRequirements drv))
                   typeIndex);
              CallBindImageMemory d (snd (answer_vkCreateImage drv))
                (snd (answer_vkAllocateMemory drv)) 0;
              CallCreateImageView d (TextureGPU.viewCreateInfo this)])
  ∧ BufferGPU.ctor drv d memory_properties info w
    = BufferGPU_ctor_calling Helper_behaviour drv d memory_properties info w
  ∧ TextureGPU.ctor drv d memory_properties image_create_info aspect w
    = TextureGPU_ctor_calling Helper_behaviour drv d memory_properties
        image_create_info aspect w.
Proof.
  split; [| split; [| split; [| split; [| split; [| split; [| split]]]]]].
  - run_ctor_calling drv. destruct (lookup _ _ _ _) as [[? ?] |]; reflexivity.
  - run_ctor_calling drv. destruct (lookup _ _ _ _) as [[? ?] |]; reflexivity.
  - run_ctor_calling drv. destruct (lookup _ _ _ _) as [[? ?] |]; reflexivity.
  - run_ctor_calling drv. destruct (lookup _ _ _ _) as [[? ?] |]; reflexivity.
  - intros returned typeIndex Hreturns.
    run_ctor_calling drv. rewrite Hreturns. cbn.
    split; [reflexivity |].
    rewrite <- !app_assoc. apply appended_app.
  - intros returned typeIndex Hreturns.
    run_ctor_calling drv. rewrite Hreturns. cbn.
    eexists. split; [reflexivity |]. cbn.
    do 3 (split; [reflexivity |]).
    rewrite <- !app_assoc. apply appended_app.
  - apply BufferGPU_ctor_calling_Helper.
  - apply TextureGPU_ctor_calling_Helper.
Qed.

(** C9 on the sample device when every Vulkan call reports an error and the
    helper returns failure without touching the index: the same buffer
    object is built, and memory is requested from type 0. *)
Lemma ctor_discards_result_codes_sample :
  outcome_value
    (BufferGPU_ctor_calling lookup_returning_failure
       (with_results sample_driver (-1) (-1) (-2) (-2) (-2) (-1))
       1 sample_properties sample_buffer_info no_calls_yet)
  = Some sample_buffer
  ∧ calls (outcome_world
             (BufferGPU_ctor_calling lookup_returning_failure sample_driver 1
                sample_properties sample_buffer_info no_calls_yet))
    = [CallCreateBuffer 1 sample_buffer_info;
       CallGetBufferMemoryRequirements 1 11;
       CallMemoryTypeFromProperties 3 VK_MEMORY_PROPERTY_DEVICE_LOCAL_BIT;
       CallAllocateMemory 1
         (VkMemoryAllocateInfo.mk VK_STRUCTURE_TYPE_MEMORY_ALLOCATE_INFO 1024 0);
       CallBindBufferMemory 1 11 31 0].
Proof.
  destruct (ctor_discards_result_codes lookup_returning_failure sample_driver 1
              sample_properties sample_buffer_info sample_image_info
              VK_IMAGE_ASPECT_COLOR_BIT no_calls_yet (-1) (-1) (-2) (-2) (-2) (-1))
    as (Hvalue & _ & _ & _ & Hreturns & _).
  destruct (Hreturns 0 0 eq_refl) as [Hobject Hcalls].
  split.
  - rewrite Hvalue. exact Hobject.
  - exact Hcalls.
Defined.

(** * Further properties of the two wrappers *)

(** ** Image layouts across uploads *)

Lemma layout_after_app (img : Z) (cmds1 cmds2 : list Command) :
  ∀ current : VkImageLayout,
    layout_after img current (cmds1 ++ cmds2)
    = match layout_after img current cmds1 with
      | Some l => layout_after img l cmds2
      | None => None
      end.
Proof.
  induction cmds1 as [| c rest IH]; intros current; cbn.
  - reflexivity.
  - destruct c as [src dst rs | s1 s2 fl ms bbs bs | src dst l rs].
    + apply IH.
    + destruct (layout_after_barriers img current bs); [apply IH | reflexivity].
    + destruct (dst =? img); [| apply IH].
      destruct (VkImageLayout_value l =? VkImageLayout_value current);
        [apply IH | reflexivity].
Qed.

Lemma TextureGPU_Store_app
    (this : TextureGPU.t) (cmd : list Command) (cpuBuffer width height : Z) :
  snd (TextureGPU.Store this cmd cpuBuffer width height)
  = cmd ++ snd (TextureGPU.Store this [] cpuBuffer width height).
Proof.
  unfold TextureGPU.Store, vkCmdPipelineBarrier, vkCmdCopyBufferToImage.
  cbn [snd]. rewrite <- !app_assoc. reflexivity.
Qed.

(** What one upload does to the layout of its image. *)
Lemma TextureGPU_Store_layout
    (this : TextureGPU.t) (cpuBuffer width height : Z) (current : VkImageLayout) :
  VkImageViewCreateInfo.image (TextureGPU.viewCreateInfo this)
  = TextureGPU.image this →
  layout_after (TextureGPU.image this) current
    (snd (TextureGPU.Store this [] cpuBuffer width height))
  = if VkImageLayout_value current =? 8
    then Some VK_IMAGE_LAYOUT_SHADER_READ_ONLY_OPTIMAL
    else None.
Proof.
  intros Himg.
  unfold TextureGPU.Store, vkCmdPipelineBarrier, vkCmdCopyBufferToImage.
  cbn. rewrite Himg, Z.eqb_refl.
  destruct current; cbn; rewrite ?Z.eqb_refl; reflexivity.
Qed.

(** X1: for a texture whose cached view descriptor names its own image, the
    three commands of [TextureGPU::Store] name, at each point, the layout the
    image is in exactly when the image starts in the preinitialized layout,
    and they leave it in shader-read-only-optimal; from any other layout
    the first barrier names a layout the image is not in. *)
Theorem TextureGPU_Store_layouts_chain
    (this : TextureGPU.t) (cmd : list Command) (cpuBuffer width height : Z)
    (current : VkImageLayout) :
  VkImageViewCreateInfo.image (TextureGPU.viewCreateInfo this)
  = TextureGPU.image this →
  (current = VK_IMAGE_LAYOUT_PREINITIALIZED →
   layout_after (TextureGPU.image this) current
     (appended cmd (snd (TextureGPU.Store this cmd cpuBuffer width height)))
   = Some VK_IMAGE_LAYOUT_SHADER_READ_ONLY_OPTIMAL)
  ∧ (current ≠ VK_IMAGE_LAYOUT_PREINITIALIZED →
     layout_after (TextureGPU.image this) current
       (appended cmd (snd (TextureGPU.Store this cmd cpuBuffer width height)))
     = None).
Proof.
  intros Himg. rewrite TextureGPU_Store_appended.
  rewrite (TextureGPU_Store_layout this cpuBuffer width height current Himg).
  split.
  - intros ->. reflexivity.
  - intros Hother. destruct current; try reflexivity. contradiction.
Qed.

(** X1 on the sample texture. *)
Lemma TextureGPU_Store_layouts_chain_sample :
  layout_after 21 VK_IMAGE_LAYOUT_PREINITIALIZED
    (appended [] (snd (TextureGPU.Store sample_texture [] 7 256 256)))
  = Some VK_IMAGE_LAYOUT_SHADER_READ_ONLY_OPTIMAL
  ∧ layout_after 21 VK_IMAGE_LAYOUT_UNDEFINED
      (appended [] (snd (TextureGPU.Store sample_texture [] 7 256 256)))
    = None.
Proof.
  split.
  - exact (proj1 (TextureGPU_Store_layouts_chain sample_texture [] 7 256 256
                    VK_IMAGE_LAYOUT_PREINITIALIZED eq_refl) eq_refl).
  - apply (proj2 (TextureGPU_Store_layouts_chain sample_texture [] 7 256 256
                    VK_IMAGE_LAYOUT_UNDEFINED eq_refl)).
    discriminate.
Defined.

(** X2: [TextureGPU::Store] keeps no record of having run.  Two uploads to
    the same texture append six commands, and the barrier that opens the
    second upload again names the preinitialized layout, which the image has
    left: the layouts of the six commands do not chain. *)
Theorem TextureGPU_Store_twice
    (this : TextureGPU.t) (cmd : list Command)
    (cpuBuffer1 width1 height1 cpuBuffer2 width2 height2 : Z) :
  VkImageViewCreateInfo.image (TextureGPU.viewCreateInfo this)
  = TextureGPU.image this →
  appended cmd
    (snd (TextureGPU.Store this
            (snd (TextureGPU.Store this cmd cpuBuffer1 width1 height1))
            cpuBuffer2 width2 height2))
  = snd (TextureGPU.Store this [] cpuBuffer1 width1 height1)
    ++ snd (TextureGPU.Store this [] cpuBuffer2 width2 height2)
  ∧ length
      (appended cmd
         (snd (TextureGPU.Store this
                 (snd (TextureGPU.Store this cmd cpuBuffer1 width1 height1))
                 cpuBuffer2 width2 height2))) = 6%nat
  ∧ layout_after (TextureGPU.image this) VK_IMAGE_LAYOUT_PREINITIALIZED
      (appended cmd
         (snd (TextureGPU.Store this
                 (snd (TextureGPU.Store this cmd cpuBuffer1 width1 height1))
                 cpuBuffer2 width2 height2)))
    = None.
Proof.
  intros Himg.
  assert (appended cmd
            (snd (TextureGPU.Store this
                    (snd (TextureGPU.Store this cmd cpuBuffer1 width1 height1))
                    cpuBuffer2 width2 height2))
          = snd (TextureGPU.Store this [] cpuBuffer1 width1 height1)
            ++ snd (TextureGPU.Store this [] cpuBuffer2 width2 height2)) as ->.
  { rewrite (TextureGPU_Store_app this (snd _)).
    rewrite (TextureGPU_Store_app this cmd).
    rewrite <- app_assoc. apply appended_app. }
  split; [reflexivity |]. split; [reflexivity |].
  rewrite layout_after_app.
  rewrite (TextureGPU_Store_layout this _ _ _ _ Himg).
  cbn [VkImageLayout_value Z.eqb Pos.eqb].
  rewrite (TextureGPU_Store_layout this _ _ _ _ Himg). reflexivity.
Qed.

(** X2 on the sample texture. *)
Lemma TextureGPU_Store_twice_sample :
  layout_after 21 VK_IMAGE_LAYOUT_PREINITIALIZED
    (appended []
       (snd (TextureGPU.Store sample_texture
               (snd (TextureGPU.Store sample_texture [] 7 256 256))
               7 256 256)))
  = None.
Proof.
  exact (proj2 (proj2 (TextureGPU_Store_twice sample_texture [] 7 256 256
                         7 256 256 eq_refl))).
Defined.

(** ** Sequences of buffer uploads *)


(** ** Negative sizes and extents *)

Lemma to_uint32_negative (z : Z) :
  int_range z → z < 0 → to_uint32 z = 2 ^ 32 + z.
Proof.
  unfold int_range, to_uint32. intros Hr Hz.
  symmetry. apply (Z.mod_unique z (2 ^ 32) (-1)); lia.
Qed.

Lemma to_uint64_negative (z : Z) :
  int_range z → z < 0 → to_uint64 z = 2 ^ 64 + z.
Proof.
  unfold int_range, to_uint64. intros Hr Hz.
  symmetry. apply (Z.mod_unique z (2 ^ 64) (-1)); lia.
Qed.

(** X4: [BufferGPU::Store] takes its size as an [int] and does not reject a
    negative one: the copy it records then has size 2^64 + size, more than
    2^63 bytes. *)
Theorem BufferGPU_Store_negative_size
    (this : BufferGPU.t) (cmd : list Command) (cpuBuffer size : Z) :
  int_range size → size < 0 →
  ∃ copyRegion : VkBufferCopy.t,
    appended cmd (snd (BufferGPU.Store this cmd cpuBuffer size))
    = [CmdCopyBuffer cpuBuffer (BufferGPU.buffer this) [copyRegion]]
    ∧ VkBufferCopy.size copyRegion = 2 ^ 64 + size
    ∧ 2 ^ 63 < VkBufferCopy.size copyRegion.
Proof.
  intros Hr Hz. rewrite BufferGPU_Store_appended.
  eexists. split; [reflexivity |]. cbn [VkBufferCopy.size VkBufferCopy.set_size].
  rewrite (to_uint64_negative size Hr Hz).
  split; [reflexivity |]. unfold int_range in Hr. lia.
Qed.

(** X4 at size -1. *)
Lemma BufferGPU_Store_negative_size_sample :
  ∃ copyRegion : VkBufferCopy.t,
    appended [] (snd (BufferGPU.Store sample_buffer [] 7 (-1)))
    = [CmdCopyBuffer 7 11 [copyRegion]]
    ∧ VkBufferCopy.size copyRegion = 18446744073709551615.
Proof.
  assert (int_range (-1)) as Hr by (unfold int_range; lia).
  assert (-1 < 0) as Hz by lia.
  destruct (BufferGPU_Store_negative_size sample_buffer [] 7 (-1) Hr Hz)
    as (copyRegion & Hcmd & Hsize & _).
  exists copyRegion. split; [exact Hcmd |]. rewrite Hsize. reflexivity.
Defined.

(** X5: [TextureGPU::Store] takes width and height as [int]s and does not
    reject negative ones: a negative width is recorded as the row length and
    extent width 2^32 + width, and a negative height as the image height and
    extent height 2^32 + height. *)
Theorem TextureGPU_Store_negative_extent
    (this : TextureGPU.t) (cmd : list Command) (cpuBuffer width height : Z) :
  int_range width → int_range height →
  ∃ region : VkBufferImageCopy.t,
    image_copy_regions
      (appended cmd (snd (TextureGPU.Store this cmd cpuBuffer width height)))
    = [region]
    ∧ (width < 0 →
       VkBufferImageCopy.bufferRowLength region = 2 ^ 32 + width
       ∧ VkExtent3D.width (VkBufferImageCopy.imageExtent region) = 2 ^ 32 + width
       ∧ 2 ^ 31 <= VkExtent3D.width (VkBufferImageCopy.imageExtent region))
    ∧ (height < 0 →
       VkBufferImageCopy.bufferImageHeight region = 2 ^ 32 + height
       ∧ VkExtent3D.height (VkBufferImageCopy.imageExtent region) = 2 ^ 32 + height
       ∧ 2 ^ 31 <= VkExtent3D.height (VkBufferImageCopy.imageExtent region)).
Proof.
  intros Hw Hh. rewrite TextureGPU_Store_appended.
  eexists. split; [reflexivity |]. cbn.
  split; intros Hneg.
  - rewrite (to_uint32_negative width Hw Hneg).
    repeat split. unfold int_range in Hw. lia.
  - rewrite (to_uint32_negative height Hh Hneg).
    repeat split. unfold int_range in Hh. lia.
Qed.

(** X5 at width -1 and height -2. *)
Lemma TextureGPU_Store_negative_extent_sample :
  ∃ region : VkBufferImageCopy.t,
    image_copy_regions
      (appended [] (snd (TextureGPU.Store sample_texture [] 7 (-1) (-2))))
    = [region]
    ∧ VkBufferImageCopy.imageExtent region
      = VkExtent3D.mk 4294967295 4294967294 1.
Proof.
  assert (int_range (-1)) as Hw by (unfold int_range; lia).
  assert (int_range (-2)) as Hh by (unfold int_range; lia).
  destruct (TextureGPU_Store_negative_extent sample_texture [] 7 (-1) (-2) Hw Hh)
    as (region & Hregions & _ & _).
  exists region. split; [exact Hregions |].
  cbn in Hregions. injection Hregions as <-. reflexivity.
Defined.

(** ** Construction followed by destruction *)

Lemma created_released (result handle : Z) (live : gset Z) :
  handle ∉ live → created result handle live ∖ {[handle]} = live.
Proof.
  intros Hfresh. unfold created.
  destruct (result =? VK_SUCCESS).
  - apply set_eq. intros x.
    rewrite elem_of_difference, elem_of_union, elem_of_singleton.
    split; [intros [[-> | Hx] Hne]; [contradiction | exact Hx] |].
    intros Hx. split; [right; exact Hx |]. intros ->. contradiction.
  - apply set_eq. intros x.
    rewrite elem_of_difference, elem_of_singleton.
    split; [intros [Hx _]; exact Hx |].
    intros Hx. split; [exact Hx |]. intros ->. contradiction.
Qed.

Lemma created_refused (result handle : Z) (live : gset Z) :
  result ≠ VK_SUCCESS → created result handle live = live.
Proof.
  intros Hrefused. unfold created.
  destruct (result =? VK_SUCCESS) eqn:E; [| reflexivity].
  apply Z.eqb_eq in E. contradiction.
Qed.

(** The live handles a [BufferGPU] construction leaves, however it ends. *)
Lemma BufferGPU_ctor_live
    (drv : Driver) (d : Z) (memory_properties : VkPhysicalDeviceMemoryProperties.t)
    (info : VkBufferCreateInfo.t) (w : World) :
  live_images (outcome_world (BufferGPU.ctor drv d memory_properties info w))
  = live_images w
  ∧ live_views (outcome_world (BufferGPU.ctor drv d memory_properties info w))
    = live_views w.
Proof.
  run_ctor drv. destruct (Helper.search _ _ _ _); split; reflexivity.
Qed.

(** The live handles a [TextureGPU] construction leaves, however it ends. *)
Lemma TextureGPU_ctor_live
    (drv : Driver) (d : Z) (memory_properties : VkPhysicalDeviceMemoryProperties.t)
    (image_create_info : VkImageCreateInfo.t) (aspect : Z) (w : World) :
  live_buffers
    (outcome_world
       (TextureGPU.ctor drv d memory_properties image_create_info aspect w))
  = live_buffers w.
Proof.
  run_ctor drv. destruct (Helper.search _ _ _ _); reflexivity.
Qed.

(** X6: when the handles the driver hands out are not in use on the device,
    constructing a [BufferGPU] and destroying it leaves on the device exactly
    the handles that were alive before, of every kind, whether or not the
    creation and the allocation succeeded. *)
Theorem BufferGPU_ctor_dtor_restores_device
    (drv : Driver) (d : Z) (memory_properties : VkPhysicalDeviceMemoryProperties.t)
    (info : VkBufferCreateInfo.t) (w w' : World) (this : BufferGPU.t) :
  snd (answer_vkCreateBuffer drv) ∉ live_buffers w →
  snd (answer_vkAllocateMemory drv) ∉ live_memory w →
  BufferGPU.ctor drv d memory_properties info w = Returned this w' →
  live_buffers (outcome_world (BufferGPU.dtor this w')) = live_buffers w
  ∧ live_memory (outcome_world (BufferGPU.dtor this w')) = live_memory w
  ∧ live_images (outcome_world (BufferGPU.dtor this w')) = live_images w
  ∧ live_views (outcome_world (BufferGPU.dtor this w')) = live_views w.
Proof.
  intros Hbuffer Hmemory Hrun.
  destruct (BufferGPU_ctor_live drv d memory_properties info w) as [Hli Hlv].
  rewrite Hrun in Hli, Hlv. cbn [outcome_world] in Hli, Hlv.
  destruct (BufferGPU_ctor_Returned _ _ _ _ _ _ _ Hrun) as [i Hi].
  destruct (BufferGPU_ctor_found drv d memory_properties info w i Hi)
    as (w2 & Hrun2 & _ & Hlb & Hlm).
  rewrite Hrun in Hrun2. injection Hrun2 as -> ->.
  rewrite BufferGPU_dtor_run.
  cbn [outcome_world live_buffers live_memory live_images live_views
       BufferGPU.buffer BufferGPU.memory].
  rewrite Hlb, Hlm, Hli, Hlv.
  rewrite !created_released by assumption. repeat split.
Qed.

(** X6 on the sample device. *)
Lemma BufferGPU_ctor_dtor_restores_device_sample :
  ∃ w' : World,
    BufferGPU.ctor sample_driver 1 sample_properties sample_buffer_info
      no_calls_yet = Returned sample_buffer w'
    ∧ live_buffers (outcome_world (BufferGPU.dtor sample_buffer w')) = ∅
    ∧ live_memory (outcome_world (BufferGPU.dtor sample_buffer w')) = ∅.
Proof.
  eexists. split; [exact BufferGPU_ctor_sample |].
  destruct (BufferGPU_ctor_dtor_restores_device sample_driver 1
              sample_properties sample_buffer_info no_calls_yet _ sample_buffer
              (not_elem_of_empty _) (not_elem_of_empty _) BufferGPU_ctor_sample)
    as (Hlb & Hlm & _ & _).
  split; [exact Hlb | exact Hlm].
Defined.

(** X7: when the handles the driver hands out are not in use on the device,
    constructing a [TextureGPU] and destroying it leaves on the device
    exactly the handles that were alive before, of every kind, whether or not
    the creations and the allocation succeeded. *)
Theorem TextureGPU_ctor_dtor_restores_device
    (drv : Driver) (d : Z) (memory_properties : VkPhysicalDeviceMemoryProperties.t)
    (image_create_info : VkImageCreateInfo.t) (aspect : Z) (w w' : World)
    (this : TextureGPU.t) :
  snd (answer_vkCreateImage drv) ∉ live_images w →
  snd (answer_vkAllocateMemory drv) ∉ live_memory w →
  snd (answer_vkCreateImageView drv) ∉ live_views w →
  TextureGPU.ctor drv d memory_properties image_create_info aspect w
  = Returned this w' →
  live_images (outcome_world (TextureGPU.dtor this w')) = live_images w
  ∧ live_memory (outcome_world (TextureGPU.dtor this w')) = live_memory w
  ∧ live_views (outcome_world (TextureGPU.dtor this w')) = live_views w
  ∧ live_buffers (outcome_world (TextureGPU.dtor this w')) = live_buffers w.
Proof.
  intros Himage Hmemory Hview Hrun.
  pose proof (TextureGPU_ctor_live drv d memory_properties image_create_info
                aspect w) as Hlb.
  rewrite Hrun in Hlb. cbn [outcome_world] in Hlb.
  destruct (TextureGPU_ctor_Returned _ _ _ _ _ _ _ _ Hrun) as [i Hi].
  destruct (TextureGPU_ctor_found drv d memory_properties image_create_info
              aspect w i Hi) as (w2 & Hrun2 & _ & Hli & Hlm & Hlv).
  rewrite Hrun in Hrun2. injection Hrun2 as -> ->.
  rewrite TextureGPU_dtor_run.
  cbn [outcome_world live_buffers live_memory live_images live_views
       TextureGPU.image TextureGPU.memory TextureGPU.imageView].
  rewrite Hlb, Hli, Hlm, Hlv.
  rewrite !created_released by assumption. repeat split.
Qed.

(** X7 on the sample device. *)
Lemma TextureGPU_ctor_dtor_restores_device_sample :
  ∃ (this : TextureGPU.t) (w' : World),
    TextureGPU.ctor sample_driver 1 sample_properties sample_image_info
      VK_IMAGE_ASPECT_COLOR_BIT no_calls_yet = Returned this w'
    ∧ live_images (outcome_world (TextureGPU.dtor this w')) = ∅
    ∧ live_memory (outcome_world (TextureGPU.dtor this w')) = ∅
    ∧ live_views (outcome_world (TextureGPU.dtor this w')) = ∅.
Proof.
  destruct (TextureGPU_ctor_found sample_driver 1 sample_properties
              sample_image_info VK_IMAGE_ASPECT_COLOR_BIT no_calls_yet 1%nat
              eq_refl) as (w' & Hrun & _).
  eexists _, w'. split; [exact Hrun |].
  destruct (TextureGPU_ctor_dtor_restores_device sample_driver 1
              sample_properties sample_image_info VK_IMAGE_ASPECT_COLOR_BIT
              no_calls_yet w' _
              (not_elem_of_empty _) (not_elem_of_empty _) (not_elem_of_empty _)
              Hrun) as (Hli & Hlm & Hlv & _).
  repeat split; assumption.
Defined.

(** X8: when the allocation is refused and the memory handle left behind is
    not a live one, either wrapper is constructed all the same, and its
    destructor then frees that memory handle, which was never allocated. *)
Theorem dtor_frees_memory_never_allocated
    (drv : Driver) (d : Z) (memory_properties : VkPhysicalDeviceMemoryProperties.t)
    (info : VkBufferCreateInfo.t) (image_create_info : VkImageCreateInfo.t)
    (aspect : Z) (w : World) :
  fst (answer_vkAllocateMemory drv) ≠ VK_SUCCESS →
  snd (answer_vkAllocateMemory drv) ∉ live_memory w →
  (∀ (this : BufferGPU.t) (w' : World),
     BufferGPU.ctor drv d memory_properties info w = Returned this w' →
     (BufferGPU.memory this ∉ live_memory w')
     ∧ appended (calls w') (calls (outcome_world (BufferGPU.dtor this w')))
         !! 1%nat
       = Some (CallFreeMemory d (BufferGPU.memory this)))
  ∧ (∀ (this : TextureGPU.t) (w' : World),
       TextureGPU.ctor drv d memory_properties image_create_info aspect w
       = Returned this w' →
       (TextureGPU.memory this ∉ live_memory w')
       ∧ appended (calls w') (calls (outcome_world (TextureGPU.dtor this w')))
           !! 0%nat
         = Some (CallFreeMemory d (TextureGPU.memory this))).
Proof.
  intros Hrefused Hfresh. split.
  - intros this w' Hrun.
    destruct (BufferGPU_ctor_Returned _ _ _ _ _ _ _ Hrun) as [i Hi].
    destruct (BufferGPU_ctor_found drv d memory_properties info w i Hi)
      as (w2 & Hrun2 & _ & _ & Hlm).
    rewrite Hrun in Hrun2. injection Hrun2 as -> ->.
    rewrite BufferGPU_dtor_run. cbn [outcome_world calls BufferGPU.memory
                                     BufferGPU.device].
    rewrite appended_app, Hlm, created_refused by assumption.
    split; [assumption | reflexivity].
  - intros this w' Hrun.
    destruct (TextureGPU_ctor_Returned _ _ _ _ _ _ _ _ Hrun) as [i Hi].
    destruct (TextureGPU_ctor_found drv d memory_properties image_create_info
                aspect w i Hi) as (w2 & Hrun2 & _ & _ & Hlm & _).
    rewrite Hrun in Hrun2. injection Hrun2 as -> ->.
    rewrite TextureGPU_dtor_run. cbn [outcome_world calls TextureGPU.memory
                                      TextureGPU.device].
    rewrite appended_app, Hlm, created_refused by assumption.
    split; [assumption | reflexivity].
Qed.

(** X8 on the sample device when it is out of memory. *)
Lemma dtor_frees_memory_never_allocated_sample :
  ∃ w' : World,
    BufferGPU.ctor out_of_memory_driver 1 sample_properties sample_buffer_info
      no_calls_yet = Returned (BufferGPU.mk 1 11 0) w'
    ∧ (0 ∉ live_memory w')
    ∧ appended (calls w')
        (calls (outcome_world (BufferGPU.dtor (BufferGPU.mk 1 11 0) w')))
        !! 1%nat
      = Some (CallFreeMemory 1 0).
Proof.
  destruct (BufferGPU_ctor_found out_of_memory_driver 1 sample_properties
              sample_buffer_info no_calls_yet 1%nat eq_refl)
    as (w' & Hrun & _).
  exists w'. split; [exact Hrun |].
  assert (fst (answer_vkAllocateMemory out_of_memory_driver) ≠ VK_SUCCESS)
    as Hrefused by discriminate.
  destruct (dtor_frees_memory_never_allocated out_of_memory_driver 1
              sample_properties sample_buffer_info sample_image_info
              VK_IMAGE_ASPECT_COLOR_BIT no_calls_yet Hrefused
              (not_elem_of_empty _)) as [Hb _].
  exact (Hb _ _ Hrun).
Defined.

(** ** Uploads to a constructed texture *)

(** X9: for a constructed [TextureGPU], the two barriers of [Store] are on
    the image the copy writes to, and the subresource the copy writes (the
    aspect given at construction, mip level 0, array layer 0) lies within the
    range that both barriers cover. *)
Theorem TextureGPU_Store_copy_within_barriers
    (drv : Driver) (d : Z) (memory_properties : VkPhysicalDeviceMemoryProperties.t)
    (image_create_info : VkImageCreateInfo.t) (aspect : Z) (w w' : World)
    (this : TextureGPU.t) (cmd : list Command) (cpuBuffer width height : Z) :
  TextureGPU.ctor drv d memory_properties image_create_info aspect w
  = Returned this w' →
  ∃ (pre post : VkImageMemoryBarrier.t) (region : VkBufferImageCopy.t),
    appended cmd (snd (TextureGPU.Store this cmd cpuBuffer width height))
    = [CmdPipelineBarrier VK_PIPELINE_STAGE_TOP_OF_PIPE_BIT
         VK_PIPELINE_STAGE_TRANSFER_BIT 0 [] [] [pre];
       CmdCopyBufferToImage cpuBuffer (snd (answer_vkCreateImage drv))
         VK_IMAGE_LAYOUT_TRANSFER_DST_OPTIMAL [region];
       CmdPipelineBarrier VK_PIPELINE_STAGE_TRANSFER_BIT
         VK_PIPELINE_STAGE_FRAGMENT_SHADER_BIT 0 [] [] [post]]
    ∧ VkImageMemoryBarrier.image pre = snd (answer_vkCreateImage drv)
    ∧ VkImageMemoryBarrier.image post = snd (answer_vkCreateImage drv)
    ∧ VkImageSubresourceLayers.aspectMask
        (VkBufferImageCopy.imageSubresource region) = aspect
    ∧ layers_in_range (VkBufferImageCopy.imageSubresource region)
        (VkImageMemoryBarrier.subresourceRange pre)
    ∧ layers_in_range (VkBufferImageCopy.imageSubresource region)
        (VkImageMemoryBarrier.subresourceRange post).
Proof.
  intros Hrun.
  destruct (TextureGPU_ctor_Returned _ _ _ _ _ _ _ _ Hrun) as [i Hi].
  destruct (TextureGPU_ctor_found drv d memory_properties image_create_info
              aspect w i Hi) as (w2 & Hrun2 & _).
  rewrite Hrun in Hrun2. injection Hrun2 as -> ->.
  rewrite TextureGPU_Store_appended.
  eexists _, _, _. split; [reflexivity |].
  do 3 (split; [reflexivity |]).
  split; unfold layers_in_range; cbn; rewrite Z.land_diag;
    repeat split; lia.
Qed.

(** X9 on the sample device. *)
Lemma TextureGPU_Store_copy_within_barriers_sample :
  ∃ (pre post : VkImageMemoryBarrier.t) (region : VkBufferImageCopy.t),
    image_barriers (snd (TextureGPU.Store sample_texture [] 7 256 256))
    = [pre; post]
    ∧ image_copy_regions (snd (TextureGPU.Store sample_texture [] 7 256 256))
      = [region]
    ∧ layers_in_range (VkBufferImageCopy.imageSubresource region)
        (VkImageMemoryBarrier.subresourceRange pre)
    ∧ layers_in_range (VkBufferImageCopy.imageSubresource region)
        (VkImageMemoryBarrier.subresourceRange post).
Proof.
  destruct (TextureGPU_ctor_found sample_driver 1 sample_properties
              sample_image_info VK_IMAGE_ASPECT_COLOR_BIT no_calls_yet 1%nat
              eq_refl) as (w' & Hrun & _).
  assert (TextureGPU.ctor sample_driver 1 sample_properties sample_image_info
            VK_IMAGE_ASPECT_COLOR_BIT no_calls_yet = Returned sample_texture w')
    as Hsample by exact Hrun.
  destruct (TextureGPU_Store_copy_within_barriers sample_driver 1
              sample_properties sample_image_info VK_IMAGE_ASPECT_COLOR_BIT
              no_calls_yet w' sample_texture [] 7 256 256 Hsample)
    as (pre & post & region & Hcmds & _ & _ & _ & Hpre & Hpost).
  exists pre, post, region.
  change (snd (TextureGPU.Store sample_texture [] 7 256 256)
          = [CmdPipelineBarrier VK_PIPELINE_STAGE_TOP_OF_PIPE_BIT
               VK_PIPELINE_STAGE_TRANSFER_BIT 0 [] [] [pre];
             CmdCopyBufferToImage 7 (snd (answer_vkCreateImage sample_driver))
               VK_IMAGE_LAYOUT_TRANSFER_DST_OPTIMAL [region];
             CmdPipelineBarrier VK_PIPELINE_STAGE_TRANSFER_BIT
               VK_PIPELINE_STAGE_FRAGMENT_SHADER_BIT 0 [] [] [post]]) in Hcmds.
  rewrite Hcmds.
  split; [reflexivity |]. split; [reflexivity |].
  split; [exact Hpre | exact Hpost].
Defined.
